(** * EmailValidator (pilot/email_validator.py)

    A shallow embedding of the [EmailValidator] class and the proofs of the
    properties its specification states.

    Python strings are sequences of Unicode code points; the validator's
    methods mutate [self.errors] and return early, which is modelled by a
    small state-and-exception monad over the instance record. *)

From Stdlib Require Import String Ascii DecimalString.
From Stdlib Require Import List NArith ZArith Bool Lia.
Import ListNotations.

(* ================================================================== *)
(** * Python strings *)
(* ================================================================== *)

Module Py.

Local Open Scope N_scope.

(** A [str] is a sequence of code points. *)
Definition pystr := list N.

(** An ASCII literal of the source, as a sequence of code points. *)
Definition str (s : string) : pystr := map N_of_ascii (list_ascii_of_string s).

(** [str(n)] for a non-negative integer, as an f-string interpolates it. *)
Definition str_of_nat (n : nat) : pystr :=
  str (NilZero.string_of_uint (Nat.to_uint n)).

(** What [email] can be at run time: the method is annotated [str], and a
    caller without a value passes [None]. *)
Inductive pyarg :=
| PyNone
| PyStr (s : pystr).

(** Truth value, as [not email] tests it. *)
Definition truthy (v : pyarg) : bool :=
  match v with
  | PyNone => false
  | PyStr [] => false
  | PyStr (_ :: _) => true
  end.

(** [c.isspace()]: the code points CPython's [str.strip()] removes. *)
Definition isspace (c : N) : bool :=
  ((9 <=? c) && (c <=? 13)) || ((28 <=? c) && (c <=? 32))
  || (c =? 133) || (c =? 160) || (c =? 5760)
  || ((8192 <=? c) && (c <=? 8202))
  || (c =? 8232) || (c =? 8233) || (c =? 8239) || (c =? 8287)
  || (c =? 12288).

Fixpoint lstrip (s : pystr) : pystr :=
  match s with
  | [] => []
  | c :: t => if isspace c then lstrip t else s
  end.

Definition rstrip (s : pystr) : pystr := rev (lstrip (rev s)).

(** [s.strip()] *)
Definition strip (s : pystr) : pystr := rstrip (lstrip s).

(** [s.count(c)] for a one-character [c]. *)
Fixpoint count (c : N) (s : pystr) : nat :=
  match s with
  | [] => 0%nat
  | x :: t => if x =? c then S (count c t) else count c t
  end.

Fixpoint startswith (p s : pystr) : bool :=
  match p, s with
  | [], _ => true
  | _ :: _, [] => false
  | a :: p', b :: s' => (a =? b) && startswith p' s'
  end.

(** [sub in s] *)
Fixpoint contains (sub s : pystr) : bool :=
  startswith sub s ||
  match s with
  | [] => false
  | _ :: t => contains sub t
  end.

(** [s.split(sep)] for a one-character [sep]: never the empty list. *)
Fixpoint split (sep : N) (s : pystr) : list pystr :=
  match s with
  | [] => [[]]
  | c :: t =>
      if c =? sep then [] :: split sep t
      else match split sep t with
           | l :: ls => (c :: l) :: ls
           | [] => [[c]]
           end
  end.

(** [s.rsplit(sep, 1)] for a one-character [sep]: the string cut at the last
    [sep], or the string alone when it has none. *)
Fixpoint rsplit1 (sep : N) (s : pystr) : list pystr :=
  match s with
  | [] => [[]]
  | c :: t =>
      match rsplit1 sep t with
      | [a; b] => [c :: a; b]
      | _ => if c =? sep then [[]; t] else [c :: t]
      end
  end.

(** [xs[i]], negative indices counting from the end; [None] is IndexError. *)
Definition getitem {A : Type} (xs : list A) (i : Z) : option A :=
  let n := Z.of_nat (length xs) in
  let j := (if i <? 0 then i + n else i)%Z in
  if ((j <? 0) || (n <=? j))%Z then None else nth_error xs (Z.to_nat j).

Definition in_range (lo hi c : N) : bool := (lo <=? c) && (c <=? hi).

(** ASCII letters and digits, as the regular expressions' ranges spell them. *)
Definition is_upper (c : N) : bool := in_range 65 90 c.
Definition is_lower (c : N) : bool := in_range 97 122 c.
Definition is_digit (c : N) : bool := in_range 48 57 c.
Definition is_letter (c : N) : bool := is_lower c || is_upper c.

(** [str.isalnum] on the Latin-1 block (U+0000..U+00FF): letters, decimal
    digits, and the characters with a numeric value. *)
Definition isalnum_latin1 (c : N) : bool :=
  is_digit c || is_upper c || is_lower c
  || (c =? 170) || (c =? 178) || (c =? 179) || (c =? 181)
  || (c =? 185) || (c =? 186) || in_range 188 190 c
  || in_range 192 214 c || in_range 216 246 c || in_range 248 255 c.

(** The interpreter's Unicode database beyond Latin-1, on which
    [str.isalnum] depends. *)
Class UnicodeData := { isalnum_beyond_latin1 : N -> bool }.

(** [c.isalnum()] *)
Definition isalnum `{UnicodeData} (c : N) : bool :=
  if c <? 256 then isalnum_latin1 c else isalnum_beyond_latin1 c.

(** A database that knows no alphanumeric beyond Latin-1, for running the
    validator on concrete inputs. *)
Definition latin1_only : UnicodeData :=
  {| isalnum_beyond_latin1 := fun _ => false |}.

End Py.

Import Py.

(* ================================================================== *)
(** * Regular expressions, as the [re] module matches them *)
(* ================================================================== *)

Module Re.

Local Open Scope N_scope.

Inductive regex :=
| Empty
| Eps
| Cls (p : N -> bool)
| Cat (r1 r2 : regex)
| Alt (r1 r2 : regex)
| Star (r : regex).

(** A literal character. *)
Definition Chr (c : N) : regex := Cls (N.eqb c).
(** [r+] *)
Definition Plus (r : regex) : regex := Cat r (Star r).
(** [r{2,}] *)
Definition AtLeast2 (r : regex) : regex := Cat r (Cat r (Star r)).
(** [^] as the first item of a pattern given to [re.match]: the match starts
    at position 0, where [^] holds. *)
Definition Caret : regex := Eps.
(** [$] as the last item of a pattern (no MULTILINE flag): the end of the
    string, or just before a newline that ends the string. *)
Definition Dollar : regex := Alt Eps (Chr 10).

(** The strings a pattern matches in full. *)
Inductive Matches : regex -> pystr -> Prop :=
| MEps : Matches Eps []
| MCls p c : p c = true -> Matches (Cls p) [c]
| MCat r1 r2 s1 s2 :
    Matches r1 s1 -> Matches r2 s2 -> Matches (Cat r1 r2) (s1 ++ s2)
| MAltL r1 r2 s : Matches r1 s -> Matches (Alt r1 r2) s
| MAltR r1 r2 s : Matches r2 s -> Matches (Alt r1 r2) s
| MStarNil r : Matches (Star r) []
| MStarApp r s1 s2 :
    Matches r s1 -> Matches (Star r) s2 -> Matches (Star r) (s1 ++ s2).

Fixpoint nullable (r : regex) : bool :=
  match r with
  | Empty => false
  | Eps => true
  | Cls _ => false
  | Cat r1 r2 => nullable r1 && nullable r2
  | Alt r1 r2 => nullable r1 || nullable r2
  | Star _ => true
  end.

Definition mkCat (r1 r2 : regex) : regex :=
  match r1 with
  | Empty => Empty
  | _ => Cat r1 r2
  end.

Definition mkAlt (r1 r2 : regex) : regex :=
  match r1, r2 with
  | Empty, _ => r2
  | _, Empty => r1
  | _, _ => Alt r1 r2
  end.

(** The residual of [r] after reading [c]. *)
Fixpoint deriv (c : N) (r : regex) : regex :=
  match r with
  | Empty => Empty
  | Eps => Empty
  | Cls p => if p c then Eps else Empty
  | Cat r1 r2 =>
      mkAlt (mkCat (deriv c r1) r2) (if nullable r1 then deriv c r2 else Empty)
  | Alt r1 r2 => mkAlt (deriv c r1) (deriv c r2)
  | Star r1 => mkCat (deriv c r1) (Star r1)
  end.

Fixpoint accepts (r : regex) (s : pystr) : bool :=
  match s with
  | [] => nullable r
  | c :: t => accepts (deriv c r) t
  end.

(** [pattern.match(s) is not None] for a pattern that ends in [$]: some
    prefix matches up to [$], that is, the whole string is matched. *)
Definition re_match (pattern : regex) (s : pystr) : bool := accepts pattern s.

End Re.

Import Re.

(* ================================================================== *)
(** * Methods: instance state, early return, exceptions *)
(* ================================================================== *)

Inductive PyExn :=
| ValueError
| IndexError
| AttributeError.

Inductive Outcome (A : Type) :=
| Returned (a : A)
| Raised (e : PyExn).

Arguments Returned {A} a.
Arguments Raised {A} e.

(** The instance: [self.strict_mode] and [self.errors]. *)
Record EmailValidator := mkEmailValidator {
  strict_mode : bool;
  errors : list pystr
}.

(** A method body: it runs on [self], may mutate it, and returns or raises. *)
Definition M (A : Type) : Type := EmailValidator -> Outcome A * EmailValidator.

Definition ret {A : Type} (a : A) : M A := fun self => (Returned a, self).

Definition raise {A : Type} (e : PyExn) : M A := fun self => (Raised e, self).

Definition bind {A B : Type} (m : M A) (k : A -> M B) : M B :=
  fun self =>
    match m self with
    | (Returned a, self') => k a self'
    | (Raised e, self') => (Raised e, self')
    end.

Notation "x <- m ;; k" := (bind m (fun x => k))
  (at level 61, m at next level, right associativity).
Notation "m ;; k" := (bind m (fun _ => k))
  (at level 61, right associativity).

(** [self.errors.clear()] *)
Definition errors_clear : M unit :=
  fun self => (Returned tt, mkEmailValidator (strict_mode self) []).

(** [self.errors.append(msg)] *)
Definition errors_append (msg : pystr) : M unit :=
  fun self =>
    (Returned tt, mkEmailValidator (strict_mode self) (errors self ++ [msg])).

(** [self.strict_mode] *)
Definition get_strict_mode : M bool := fun self => (Returned (strict_mode self), self).

(** [self.errors.copy()] *)
Definition errors_copy : M (list pystr) := fun self => (Returned (errors self), self).

(** [xs[i]] *)
Definition index {A : Type} (xs : list A) (i : Z) : M A :=
  match getitem xs i with
  | Some x => ret x
  | None => raise IndexError
  end.

(** [s[i] == c] *)
Definition item_is (s : pystr) (i : Z) (c : N) : M bool :=
  x <- index s i ;; ret (x =? c)%N.

(** [a or b]: [b] is evaluated only when [a] is false. *)
Definition orM (a b : M bool) : M bool :=
  x <- a ;; if x then ret true else b.

Infix "<||>" := orM (at level 55, right associativity).

(** [email.strip()]: [None] has no such attribute. *)
Definition arg_strip (email : pyarg) : M pystr :=
  match email with
  | PyNone => raise AttributeError
  | PyStr s => ret (strip s)
  end.

(** [a, b = parts] *)
Definition unpack2 {A : Type} (parts : list A) : M (A * A) :=
  match parts with
  | [a; b] => ret (a, b)
  | _ => raise ValueError
  end.

(** [for x in xs: body], where the body may [return] from the method:
    [Some v] is [return v], [None] is falling through to the next item. *)
Fixpoint for_each {A R : Type} (xs : list A) (body : A -> M (option R))
  : M (option R) :=
  match xs with
  | [] => ret None
  | x :: rest =>
      r <- body x ;;
      match r with
      | Some v => ret (Some v)
      | None => for_each rest body
      end
  end.

(** [EmailValidator(strict_mode)] *)
Definition init (strict : bool) : EmailValidator := mkEmailValidator strict [].

(* ================================================================== *)
(** * The class [EmailValidator] *)
(* ================================================================== *)

Definition chr (a : ascii) : N := N_of_ascii a.

Definition mem (c : N) (set : pystr) : bool := existsb (N.eqb c) set.

Definition nonempty (s : pystr) : bool :=
  match s with
  | [] => false
  | _ :: _ => true
  end.

Infix "@@" := Cat (at level 60, right associativity).

Definition local_class (c : N) : bool :=
  is_lower c || is_upper c || is_digit c || mem c (str "._%+-").

Definition domain_class (c : N) : bool :=
  is_lower c || is_upper c || is_digit c || mem c (str ".-").

Definition label_class (c : N) : bool :=
  is_lower c || is_upper c || is_digit c || mem c (str "-").

(** [r'^[a-zA-Z0-9._%+-]+@[a-zA-Z0-9.-]+\.[a-zA-Z]{2,}$'] *)
Definition EMAIL_PATTERN : regex :=
  Caret @@ Plus (Cls local_class) @@ Chr (chr "@")
  @@ Plus (Cls domain_class) @@ Chr (chr ".")
  @@ AtLeast2 (Cls is_letter) @@ Dollar.

(** [r'^[a-zA-Z0-9-]+$'] *)
Definition LABEL_PATTERN : regex :=
  Caret @@ Plus (Cls label_class) @@ Dollar.

Definition MAX_EMAIL_LENGTH : nat := 254.
Definition MAX_LOCAL_LENGTH : nat := 64.
Definition MAX_DOMAIN_LENGTH : nat := 255.

(** The messages, under the names the specification gives the error kinds. *)
Definition EmptyInput : pystr := str "Email address cannot be empty".
Definition TooLong : pystr :=
  str "Email exceeds maximum length of " ++ str_of_nat MAX_EMAIL_LENGTH
  ++ str " characters".
Definition BadSeparatorCount : pystr :=
  str "Email must contain exactly one @ symbol".
Definition PatternMismatch : pystr := str "Email format is invalid".
Definition EmptyLocal : pystr := str "Local part (before @) cannot be empty".
Definition LocalTooLong : pystr :=
  str "Local part exceeds maximum length of " ++ str_of_nat MAX_LOCAL_LENGTH
  ++ str " characters".
Definition LocalBoundaryDot : pystr :=
  str "Local part cannot start or end with a period".
Definition LocalConsecutiveDots : pystr :=
  str "Local part cannot contain consecutive periods".
Definition LocalInvalidChar (char : N) : pystr :=
  str "Local part contains invalid character: '" ++ [char] ++ str "'".
Definition EmptyDomain : pystr := str "Domain part (after @) cannot be empty".
Definition DomainTooLong : pystr :=
  str "Domain exceeds maximum length of " ++ str_of_nat MAX_DOMAIN_LENGTH
  ++ str " characters".
Definition DomainNoDot : pystr := str "Domain must contain at least one period".
Definition DomainBoundaryChar : pystr :=
  str "Domain cannot start or end with a period or hyphen".
Definition DomainConsecutiveDots : pystr :=
  str "Domain cannot contain consecutive periods".
Definition TldTooShort : pystr :=
  str "Top-level domain must be at least 2 characters".
Definition EmptyLabel : pystr := str "Domain labels cannot be empty".
Definition LabelTooLong : pystr :=
  str "Domain label exceeds maximum length of 63 characters".
Definition LabelInvalidChar (label : pystr) : pystr :=
  str "Domain label '" ++ label ++ str "' contains invalid characters".

Section Methods.

Context `{UnicodeData}.

(** The body of the strict-mode loop over the characters of the local part. *)
Definition local_char_check (allowed_special : pystr) (char : N)
  : M (option bool) :=
  if negb (isalnum char || mem char allowed_special) then
    errors_append (LocalInvalidChar char) ;; ret (Some false)
  else ret None.

Definition _validate_local_part (local : pystr) : M bool :=
  if negb (nonempty local) then
    errors_append EmptyLocal ;; ret false
  else if (MAX_LOCAL_LENGTH <? length local)%nat then
    errors_append LocalTooLong ;; ret false
  else
    boundary <- item_is local 0 (chr ".") <||> item_is local (-1) (chr ".") ;;
    if boundary then
      errors_append LocalBoundaryDot ;; ret false
    else if contains (str "..") local then
      errors_append LocalConsecutiveDots ;; ret false
    else
      strict <- get_strict_mode ;;
      if strict then
        let allowed_special := str "._%+-" in
        r <- for_each local (local_char_check allowed_special) ;;
        match r with
        | Some v => ret v
        | None => ret true
        end
      else ret true.

(** The body of the loop over the labels of the domain. *)
Definition label_check (label : pystr) : M (option bool) :=
  if negb (nonempty label) then
    errors_append EmptyLabel ;; ret (Some false)
  else if (63 <? length label)%nat then
    errors_append LabelTooLong ;; ret (Some false)
  else if negb (re_match LABEL_PATTERN label) then
    errors_append (LabelInvalidChar label) ;; ret (Some false)
  else ret None.

Definition _validate_domain_part (domain : pystr) : M bool :=
  if negb (nonempty domain) then
    errors_append EmptyDomain ;; ret false
  else if (MAX_DOMAIN_LENGTH <? length domain)%nat then
    errors_append DomainTooLong ;; ret false
  else if negb (contains (str ".") domain) then
    errors_append DomainNoDot ;; ret false
  else
    boundary <- item_is domain 0 (chr ".") <||> item_is domain (-1) (chr ".")
                <||> item_is domain 0 (chr "-") <||> item_is domain (-1) (chr "-") ;;
    if boundary then
      errors_append DomainBoundaryChar ;; ret false
    else if contains (str "..") domain then
      errors_append DomainConsecutiveDots ;; ret false
    else
      let labels := split (chr ".") domain in
      tld <- index labels (-1) ;;
      if (length tld <? 2)%nat then
        errors_append TldTooShort ;; ret false
      else
        r <- for_each labels label_check ;;
        match r with
        | Some v => ret v
        | None => ret true
        end.

Definition validate (email : pyarg) : M bool :=
  errors_clear ;;
  if negb (truthy email) then
    errors_append EmptyInput ;; ret false
  else
    email <- arg_strip email ;;
    if (MAX_EMAIL_LENGTH <? length email)%nat then
      errors_append TooLong ;; ret false
    else if negb (count (chr "@") email =? 1)%nat then
      errors_append BadSeparatorCount ;; ret false
    else
      parts <- unpack2 (rsplit1 (chr "@") email) ;;
      let '(local, domain) := parts in
      ok <- _validate_local_part local ;;
      if negb ok then ret false
      else
        ok <- _validate_domain_part domain ;;
        if negb ok then ret false
        else if negb (re_match EMAIL_PATTERN email) then
          errors_append PatternMismatch ;; ret false
        else ret true.

Definition is_valid (email : pyarg) : M bool := validate email.

Definition get_errors : M (list pystr) := errors_copy.

Definition validate_with_details (email : pyarg) : M (bool * list pystr) :=
  is_valid <- validate email ;;
  errs <- get_errors ;;
  ret (is_valid, errs).

End Methods.

(* ================================================================== *)
(** * The stages of the specification, as predicates on the input *)
(* ================================================================== *)

Definition head_is (s : pystr) (c : N) : bool :=
  match s with
  | [] => false
  | x :: _ => (x =? c)%N
  end.

Definition last_is (s : pystr) (c : N) : bool :=
  match s with
  | [] => false
  | _ :: _ => (last s 0 =? c)%N
  end.

(** The string a call works on after stage 1: the input, trimmed. *)
Definition trimmed (email : pyarg) : pystr :=
  match email with
  | PyNone => []
  | PyStr s => strip s
  end.

(** The part before and the part after the separator. *)
Definition local_of (e : pystr) : pystr := nth 0 (rsplit1 (chr "@") e) [].
Definition domain_of (e : pystr) : pystr := nth 1 (rsplit1 (chr "@") e) [].

(** The last label of a domain. *)
Definition tld_of (domain : pystr) : pystr := last (split (chr ".") domain) [].

Section Stages.

Context `{UnicodeData}.

(** What strict mode lets through in the local part. *)
Definition strict_char_ok (c : N) : bool := isalnum c || mem c (str "._%+-").

(** The local-part rules. *)
Definition local_rules (strict : bool) (local : pystr) : bool :=
  nonempty local
  && (length local <=? MAX_LOCAL_LENGTH)%nat
  && negb (head_is local (chr ".") || last_is local (chr "."))
  && negb (contains (str "..") local)
  && (negb strict || forallb strict_char_ok local).

(** The domain-part rules that come before the split into labels. *)
Definition domain_shape_rules (domain : pystr) : bool :=
  nonempty domain
  && (length domain <=? MAX_DOMAIN_LENGTH)%nat
  && contains (str ".") domain
  && negb (head_is domain (chr ".") || last_is domain (chr ".")
           || head_is domain (chr "-") || last_is domain (chr "-"))
  && negb (contains (str "..") domain).

(** The rules of one label. *)
Definition label_rules (label : pystr) : bool :=
  nonempty label
  && (length label <=? 63)%nat
  && re_match LABEL_PATTERN label.

(** The domain-part rules. *)
Definition domain_rules (domain : pystr) : bool :=
  domain_shape_rules domain
  && (2 <=? length (tld_of domain))%nat
  && forallb label_rules (split (chr ".") domain).

Definition stage_nonempty (email : pyarg) : bool := truthy email.

Definition stage_length (email : pyarg) : bool :=
  (length (trimmed email) <=? MAX_EMAIL_LENGTH)%nat.

Definition stage_separator (email : pyarg) : bool :=
  (count (chr "@") (trimmed email) =? 1)%nat.

Definition stage_local (strict : bool) (email : pyarg) : bool :=
  local_rules strict (local_of (trimmed email)).

Definition stage_domain (email : pyarg) : bool :=
  domain_rules (domain_of (trimmed email)).

Definition stage_pattern (email : pyarg) : bool :=
  re_match EMAIL_PATTERN (trimmed email).

(** All six stages succeed. *)
Definition all_stages (strict : bool) (email : pyarg) : bool :=
  stage_nonempty email && stage_length email && stage_separator email
  && stage_local strict email && stage_domain email && stage_pattern email.

(** ** The same stages, with the character rules as the claims read them

    Here every character rule is read over the ASCII classes that the final
    pattern spells ("alphanumeric" as [[A-Za-z0-9]], a label as characters of
    [[A-Za-z0-9-]] only), and the pattern is anchored at both ends of the
    string. *)

(** The final pattern without the allowance [$] makes for a last newline. *)
Definition ANCHORED_PATTERN : regex :=
  Plus (Cls local_class) @@ Chr (chr "@")
  @@ Plus (Cls domain_class) @@ Chr (chr ".")
  @@ AtLeast2 (Cls is_letter).

Definition local_rules_ascii (strict : bool) (local : pystr) : bool :=
  nonempty local
  && (length local <=? MAX_LOCAL_LENGTH)%nat
  && negb (head_is local (chr ".") || last_is local (chr "."))
  && negb (contains (str "..") local)
  && (negb strict || forallb local_class local).

Definition label_rules_ascii (label : pystr) : bool :=
  nonempty label
  && (length label <=? 63)%nat
  && forallb label_class label.

Definition domain_rules_ascii (domain : pystr) : bool :=
  domain_shape_rules domain
  && (2 <=? length (tld_of domain))%nat
  && forallb label_rules_ascii (split (chr ".") domain).

Definition all_stages_ascii (strict : bool) (email : pyarg) : bool :=
  stage_nonempty email && stage_length email && stage_separator email
  && local_rules_ascii strict (local_of (trimmed email))
  && domain_rules_ascii (domain_of (trimmed email))
  && accepts ANCHORED_PATTERN (trimmed email).

(** The message the label loop appends for a label that breaks a rule. *)
Definition label_message (label : pystr) : pystr :=
  if negb (nonempty label) then EmptyLabel
  else if (63 <? length label)%nat then LabelTooLong
  else LabelInvalidChar label.

(** The first local-part rule that fails, by its message. *)
Definition local_failure (strict : bool) (local : pystr) : option pystr :=
  if negb (nonempty local) then Some EmptyLocal
  else if (MAX_LOCAL_LENGTH <? length local)%nat then Some LocalTooLong
  else if head_is local (chr ".") || last_is local (chr ".") then
    Some LocalBoundaryDot
  else if contains (str "..") local then Some LocalConsecutiveDots
  else if strict then
    option_map LocalInvalidChar (find (fun c => negb (strict_char_ok c)) local)
  else None.

(** The first domain-part rule that fails, by its message. *)
Definition domain_failure (domain : pystr) : option pystr :=
  if negb (nonempty domain) then Some EmptyDomain
  else if (MAX_DOMAIN_LENGTH <? length domain)%nat then Some DomainTooLong
  else if negb (contains (str ".") domain) then Some DomainNoDot
  else if head_is domain (chr ".") || last_is domain (chr ".")
          || head_is domain (chr "-") || last_is domain (chr "-") then
    Some DomainBoundaryChar
  else if contains (str "..") domain then Some DomainConsecutiveDots
  else if (length (tld_of domain) <? 2)%nat then Some TldTooShort
  else
    option_map label_message
      (find (fun l => negb (label_rules l)) (split (chr ".") domain)).

(** The first stage that fails, by its message: the validator as the pure
    function from the input to its diagnostics. *)
Definition first_failure (strict : bool) (email : pyarg) : option pystr :=
  if negb (truthy email) then Some EmptyInput
  else
    let e := trimmed email in
    if (MAX_EMAIL_LENGTH <? length e)%nat then Some TooLong
    else if negb (count (chr "@") e =? 1)%nat then Some BadSeparatorCount
    else
      match local_failure strict (local_of e) with
      | Some msg => Some msg
      | None =>
          match domain_failure (domain_of e) with
          | Some msg => Some msg
          | None =>
              if negb (re_match EMAIL_PATTERN e) then Some PatternMismatch
              else None
          end
      end.

End Stages.

Definition passed (failure : option pystr) : bool :=
  match failure with
  | None => true
  | Some _ => false
  end.

Definition reported (failure : option pystr) : list pystr :=
  match failure with
  | None => []
  | Some msg => [msg]
  end.

(** What a caller of [validate_with_details] observes. *)
Definition call_with_details `{UnicodeData} (self : EmailValidator)
    (email : pyarg) : Outcome (bool * list pystr) :=
  fst (validate_with_details email self).

(** The trimmed input reads [local@domain], with the separator the only
    ['@'], and is within the overall length limit: the inputs that reach the
    local-part and domain-part methods. *)
Definition address_parts (email : pyarg) (local domain : pystr) : Prop :=
  trimmed email = local ++ chr "@" :: domain
  /\ count (chr "@") local = 0
  /\ count (chr "@") domain = 0
  /\ length (trimmed email) <= MAX_EMAIL_LENGTH.

(* ================================================================== *)
(** * Facts about the string operations *)
(* ================================================================== *)

Lemma getitem_first (A : Type) (x : A) (xs : list A) :
  getitem (x :: xs) 0 = Some x.
Proof.
  unfold getitem. cbn [length Z.ltb Z.compare].
  destruct (Z.leb_spec (Z.of_nat (S (length xs))) 0); [lia | reflexivity].
Qed.

Lemma nth_error_last (A : Type) (x d : A) (xs : list A) :
  nth_error (x :: xs) (length xs) = Some (last (x :: xs) d).
Proof.
  revert x. induction xs as [|y ys IH]; intro x; [reflexivity|].
  cbn [length nth_error]. rewrite IH. reflexivity.
Qed.

Lemma getitem_last (A : Type) (x d : A) (xs : list A) :
  getitem (x :: xs) (-1) = Some (last (x :: xs) d).
Proof.
  unfold getitem. cbn [Z.ltb Z.compare].
  set (n := Z.of_nat (length (x :: xs))).
  assert (Hn : n = (Z.of_nat (length xs) + 1)%Z) by (subst n; cbn [length]; lia).
  replace (-1 + n)%Z with (Z.of_nat (length xs)) by lia.
  destruct (Z.ltb_spec (Z.of_nat (length xs)) 0); [lia|].
  destruct (Z.leb_spec n (Z.of_nat (length xs))); [lia|].
  cbn [orb]. rewrite Nat2Z.id. apply nth_error_last.
Qed.

Lemma count_app (c : N) (a b : pystr) :
  count c (a ++ b) = count c a + count c b.
Proof.
  induction a as [|x a IH]; [reflexivity|].
  cbn [app count]. destruct (x =? c)%N; rewrite IH; reflexivity.
Qed.

Lemma count_zero_iff (c : N) (s : pystr) :
  count c s = 0 <-> ~ In c s.
Proof.
  induction s as [|x s IH]; cbn [count In]; [tauto|].
  destruct (N.eqb_spec x c) as [->|Hne].
  - split; [discriminate | intro Hn; exfalso; apply Hn; now left].
  - rewrite IH. split; [intros Hn [Hx|Hin]; [congruence | tauto] | tauto].
Qed.

Lemma count_lstrip (c : N) (s : pystr) :
  isspace c = false -> count c (lstrip s) = count c s.
Proof.
  intro Hc. induction s as [|x t IH]; [reflexivity|].
  cbn [lstrip]. destruct (isspace x) eqn:Hx; [|reflexivity].
  cbn [count]. destruct (N.eqb_spec x c) as [->|_]; [congruence | exact IH].
Qed.

Lemma count_rev (c : N) (s : pystr) : count c (rev s) = count c s.
Proof.
  induction s as [|x t IH]; [reflexivity|].
  cbn [rev]. rewrite count_app, IH. cbn [count].
  destruct (x =? c)%N; lia.
Qed.

(** Trimming removes no character that is not whitespace. *)
Lemma count_strip (c : N) (s : pystr) :
  isspace c = false -> count c (strip s) = count c s.
Proof.
  intro Hc. unfold strip, rstrip.
  now rewrite count_rev, count_lstrip, count_rev, count_lstrip.
Qed.

Lemma forallb_count_zero (p : N -> bool) (c : N) (s : pystr) :
  forallb p s = true -> p c = false -> count c s = 0.
Proof.
  intros Hp Hc. induction s as [|x t IH]; [reflexivity|].
  cbn [forallb] in Hp. apply andb_true_iff in Hp as [Hx Ht].
  cbn [count]. destruct (N.eqb_spec x c) as [->|_]; [congruence | auto].
Qed.

Lemma forallb_existsb_negb (p : N -> bool) (s : pystr) :
  forallb p s = true -> existsb (fun c => negb (p c)) s = false.
Proof.
  induction s as [|x t IH]; [reflexivity|]. cbn [forallb existsb].
  intro Hp. apply andb_true_iff in Hp as [Hx Ht]. now rewrite Hx, IH.
Qed.

Lemma count_end_of_line (c : N) (nl : pystr) :
  c <> 10%N -> nl = [] \/ nl = [10%N] -> count c nl = 0.
Proof.
  intros Hc [-> | ->]; [reflexivity|]. cbn [count].
  destruct (N.eqb_spec 10 c); [congruence | reflexivity].
Qed.

Lemma forallb_agree (A : Type) (p q : A -> bool) (xs : list A) :
  (forall x, In x xs -> p x = q x) -> forallb p xs = forallb q xs.
Proof.
  induction xs as [|x xs IH]; intro Hpq; [reflexivity|].
  cbn [forallb]. rewrite (Hpq x) by now left.
  rewrite IH; [reflexivity|]. intros y Hy. apply Hpq. now right.
Qed.

Lemma find_none_forallb (A : Type) (p : A -> bool) (xs : list A) :
  find (fun x => negb (p x)) xs = None <-> forallb p xs = true.
Proof.
  induction xs as [|x xs IH]; cbn [find forallb]; [tauto|].
  destruct (p x); cbn [negb andb]; [exact IH|]. split; discriminate.
Qed.

Lemma find_some_forallb (A : Type) (p : A -> bool) (xs : list A) (x : A) :
  find (fun x => negb (p x)) xs = Some x -> forallb p xs = false.
Proof.
  intro Hf. destruct (forallb p xs) eqn:Hp; [|reflexivity].
  apply find_none_forallb in Hp. congruence.
Qed.

Lemma find_first_offender (p : N -> bool) (pre : pystr) (c : N) (post : pystr) :
  forallb p pre = true -> p c = false ->
  find (fun x => negb (p x)) (pre ++ c :: post) = Some c.
Proof.
  intros Hpre Hc. induction pre as [|x t IH]; cbn [app find].
  - now rewrite Hc.
  - cbn [forallb] in Hpre. apply andb_true_iff in Hpre as [Hx Ht].
    rewrite Hx. cbn [negb]. auto.
Qed.

(** [rsplit] either finds no separator, or cuts at one with none after it. *)
Lemma rsplit1_spec (sep : N) (s : pystr) :
  (count sep s = 0 /\ rsplit1 sep s = [s]) \/
  (exists a b, rsplit1 sep s = [a; b] /\ s = a ++ sep :: b /\ count sep b = 0).
Proof.
  induction s as [|c t IH]; [left; split; reflexivity|].
  cbn [rsplit1 count].
  destruct IH as [[Hc Hr] | (a & b & Hr & Hs & Hb)].
  - rewrite Hr. destruct (N.eqb_spec c sep) as [->|Hne].
    + right. exists [], t. repeat split; assumption.
    + left. split; [assumption | reflexivity].
  - rewrite Hr. right. exists (c :: a), b. subst t. repeat split; assumption.
Qed.

Lemma rsplit1_no_sep (sep : N) (s : pystr) :
  count sep s = 0 -> rsplit1 sep s = [s].
Proof.
  intro Hc. destruct (rsplit1_spec sep s) as [[_ Hr] | (a & b & _ & Hs & _)];
    [assumption|].
  subst s. rewrite count_app in Hc. cbn [count] in Hc.
  rewrite N.eqb_refl in Hc. lia.
Qed.

Lemma rsplit1_cut (sep : N) (a b : pystr) :
  count sep b = 0 -> rsplit1 sep (a ++ sep :: b) = [a; b].
Proof.
  intro Hb. induction a as [|x a IH].
  - cbn [app rsplit1]. rewrite (rsplit1_no_sep _ _ Hb), N.eqb_refl. reflexivity.
  - cbn [app rsplit1]. rewrite IH. reflexivity.
Qed.

(** With exactly one separator, [rsplit] yields the two parts around it. *)
Lemma rsplit1_one (sep : N) (s : pystr) :
  count sep s = 1 ->
  exists a b, rsplit1 sep s = [a; b] /\ s = a ++ sep :: b
              /\ count sep a = 0 /\ count sep b = 0.
Proof.
  intro Hc. destruct (rsplit1_spec sep s) as [[H0 _] | (a & b & Hr & Hs & Hb)];
    [lia|].
  exists a, b. repeat split; try assumption.
  subst s. rewrite count_app in Hc. cbn [count] in Hc.
  rewrite N.eqb_refl in Hc. lia.
Qed.

Lemma split_not_nil (sep : N) (s : pystr) : split sep s <> [].
Proof.
  destruct s as [|c t]; cbn [split]; [discriminate|].
  destruct (c =? sep)%N; [discriminate|].
  destruct (split sep t); discriminate.
Qed.

Lemma split_no_sep (sep : N) (s : pystr) :
  count sep s = 0 -> split sep s = [s].
Proof.
  induction s as [|c t IH]; [reflexivity|].
  cbn [count split]. destruct (c =? sep)%N; [discriminate|].
  intro Hc. rewrite (IH Hc). reflexivity.
Qed.

Lemma split_app (sep : N) (a b : pystr) :
  split sep (a ++ sep :: b) = split sep a ++ split sep b.
Proof.
  induction a as [|x a IH].
  - cbn [app split]. rewrite N.eqb_refl. reflexivity.
  - cbn [app split]. rewrite IH. destruct (x =? sep)%N; [reflexivity|].
    destruct (split sep a) as [|l ls] eqn:Hs; [now apply split_not_nil in Hs|].
    reflexivity.
Qed.

(** The last label is what follows the last separator. *)
Lemma tld_of_cut (a b : pystr) :
  count (chr ".") b = 0 -> tld_of (a ++ chr "." :: b) = b.
Proof.
  intro Hb. unfold tld_of. rewrite split_app, (split_no_sep _ _ Hb).
  apply last_last.
Qed.

(** The characters of a label are characters of the string. *)
Lemma split_In (sep : N) (s : pystr) (label : pystr) (c : N) :
  In label (split sep s) -> In c label -> In c s.
Proof.
  revert label. induction s as [|x t IH]; intros label Hl Hc.
  - cbn [split In] in Hl. destruct Hl as [<- | []]. exact Hc.
  - cbn [split] in Hl. destruct (x =? sep)%N.
    + destruct Hl as [<- | Hl]; [destruct Hc|]. right. eauto.
    + destruct (split sep t) as [|l ls] eqn:Hs; [now apply split_not_nil in Hs|].
      destruct Hl as [<- | Hl].
      * destruct Hc as [<- | Hc]; [now left|]. right. apply (IH l); [now left | exact Hc].
      * right. apply (IH label); [now right | exact Hc].
Qed.

Lemma lstrip_length (s : pystr) : length (lstrip s) <= length s.
Proof.
  induction s as [|c t IH]; [reflexivity|].
  cbn [lstrip]. destruct (isspace c); cbn [length]; lia.
Qed.

Lemma strip_length (s : pystr) : length (strip s) <= length s.
Proof.
  unfold strip, rstrip. rewrite length_rev.
  etransitivity; [apply lstrip_length|]. rewrite length_rev. apply lstrip_length.
Qed.

Lemma lstrip_head (s : pystr) (c : N) (t : pystr) :
  lstrip s = c :: t -> isspace c = false.
Proof.
  induction s as [|x s IH]; cbn [lstrip]; [discriminate|].
  destruct (isspace x) eqn:Hx; [exact IH|].
  intro Heq. injection Heq as <- _. exact Hx.
Qed.

Lemma strip_last (s x : pystr) (c : N) :
  strip s = x ++ [c] -> isspace c = false.
Proof.
  unfold strip, rstrip. intro Heq.
  apply (f_equal (@rev N)) in Heq. rewrite rev_involutive, rev_unit in Heq.
  now apply lstrip_head in Heq.
Qed.

(** The trimmed input does not end with a newline. *)
Lemma trimmed_no_final_newline (email : pyarg) (x : pystr) :
  trimmed email <> x ++ [10%N].
Proof.
  destruct email as [|s]; cbn [trimmed].
  - destruct x; discriminate.
  - intro Heq. apply strip_last in Heq. discriminate.
Qed.

Lemma nonempty_not_nil (s : pystr) : nonempty s = true -> s <> [].
Proof. destruct s; [discriminate | discriminate]. Qed.

Lemma last_is_cons (c x : N) (t : pystr) (sep : N) :
  last_is (c :: x :: t) sep = last_is (x :: t) sep.
Proof. reflexivity. Qed.

Lemma contains_cons_false (sub : pystr) (c : N) (t : pystr) :
  contains sub (c :: t) = false ->
  startswith sub (c :: t) = false /\ contains sub t = false.
Proof. cbn [contains]. apply orb_false_elim. Qed.

(** Labels between separators: with no doubled separator and none at the
    end, only the first label can be empty, and only when the string starts
    with a separator. *)
Lemma split_labels_nonempty_aux (sep : N) (s : pystr) :
  s <> [] ->
  last_is s sep = false ->
  contains [sep; sep] s = false ->
  Forall (fun l => nonempty l = true) (tl (split sep s)) /\
  (head_is s sep = false -> nonempty (hd [] (split sep s)) = true).
Proof.
  induction s as [|c t IH]; [congruence|]. intros _ Hlast Hdd.
  destruct t as [|x t'].
  - cbn [last_is last] in Hlast. cbn [split head_is]. rewrite Hlast.
    cbn. split; [constructor | reflexivity].
  - rewrite last_is_cons in Hlast.
    apply contains_cons_false in Hdd as [Hsw Hdd].
    specialize (IH ltac:(discriminate) Hlast Hdd) as [IHtl IHhd].
    cbn [split head_is] in *.
    destruct (N.eqb_spec c sep) as [->|Hne].
    + cbn [tl hd]. split; [|discriminate].
      cbn [startswith] in Hsw. rewrite N.eqb_refl, andb_true_r in Hsw.
      cbn [andb] in Hsw. rewrite N.eqb_sym in Hsw. specialize (IHhd Hsw).
      destruct (x =? sep)%N; [discriminate|].
      destruct (split sep t') as [|l ls]; cbn [hd tl] in *; constructor;
        solve [reflexivity | assumption | constructor].
    + destruct (x =? sep)%N.
      * cbn [tl hd] in *. split; [assumption | reflexivity].
      * destruct (split sep t') as [|l ls]; cbn [hd tl] in *;
          (split; [assumption | reflexivity]).
Qed.

Lemma split_labels_nonempty (sep : N) (s : pystr) :
  s <> [] ->
  head_is s sep = false ->
  last_is s sep = false ->
  contains [sep; sep] s = false ->
  Forall (fun l => nonempty l = true) (split sep s).
Proof.
  intros Hne Hhd Hlast Hdd.
  destruct (split_labels_nonempty_aux sep s Hne Hlast Hdd) as [Htl Hh].
  specialize (Hh Hhd). pose proof (split_not_nil sep s) as Hnil.
  destruct (split sep s) as [|l ls]; [congruence|].
  constructor; assumption.
Qed.

Lemma letter_not_digit (c : N) : is_letter c = true -> is_digit c = false.
Proof.
  unfold is_letter, is_digit, is_lower, is_upper, in_range. intro Hl.
  apply andb_false_iff.
  destruct (N.leb_spec 48 c); [|now left].
  destruct (N.leb_spec c 57); [|now right].
  exfalso. apply orb_true_iff in Hl as [Hl | Hl];
    apply andb_true_iff in Hl as [Hlo Hhi];
    apply N.leb_le in Hlo, Hhi; lia.
Qed.

Lemma letters_have_no_digit (l : pystr) :
  forallb is_letter l = true -> existsb is_digit l = false.
Proof.
  induction l as [|x t IH]; [reflexivity|]. cbn [forallb existsb].
  intro Hp. apply andb_true_iff in Hp as [Hx Ht].
  now rewrite (letter_not_digit _ Hx), IH.
Qed.

Lemma in_range_below (lo hi c : N) :
  (hi < 256)%N -> in_range lo hi c = true -> (c <? 256)%N = true.
Proof.
  unfold in_range. intros Hhi Hr. apply andb_true_iff in Hr as [_ Hc].
  apply N.leb_le in Hc. apply N.ltb_lt. lia.
Qed.

(** What the pattern's local class accepts, strict mode lets through. *)
Lemma local_class_strict_ok `{UnicodeData} (c : N) :
  local_class c = true -> strict_char_ok c = true.
Proof.
  unfold local_class, strict_char_ok. intro Hc.
  apply orb_true_iff in Hc as [Hc | Hc]; [|rewrite Hc; apply orb_true_r].
  apply orb_true_iff. left. unfold isalnum, isalnum_latin1.
  apply orb_true_iff in Hc as [Hc | Hc]; [apply orb_true_iff in Hc as [Hc | Hc]|].
  - rewrite (in_range_below 97 122 c) by (reflexivity || exact Hc).
    rewrite Hc. now rewrite !orb_true_r.
  - rewrite (in_range_below 65 90 c) by (reflexivity || exact Hc).
    rewrite Hc. now rewrite !orb_true_r.
  - rewrite (in_range_below 48 57 c) by (reflexivity || exact Hc).
    now rewrite Hc.
Qed.

(* ================================================================== *)
(** * The matcher decides the language of a pattern *)
(* ================================================================== *)

Lemma Matches_Empty (s : pystr) : ~ Matches Empty s.
Proof. intro Hm. inversion Hm. Qed.

Lemma Matches_Eps (s : pystr) : Matches Eps s <-> s = [].
Proof.
  split; [intro Hm; now inversion Hm | intros ->; constructor].
Qed.

Lemma Matches_Cls (p : N -> bool) (s : pystr) :
  Matches (Cls p) s <-> exists c, s = [c] /\ p c = true.
Proof.
  split.
  - intro Hm. inversion Hm; subst. eauto.
  - intros (c & -> & Hp). now constructor.
Qed.

Lemma Matches_Cat (r1 r2 : regex) (s : pystr) :
  Matches (Cat r1 r2) s <->
  exists s1 s2, s = s1 ++ s2 /\ Matches r1 s1 /\ Matches r2 s2.
Proof.
  split.
  - intro Hm. inversion Hm; subst. eauto.
  - intros (s1 & s2 & -> & H1 & H2). now constructor.
Qed.

Lemma Matches_Alt (r1 r2 : regex) (s : pystr) :
  Matches (Alt r1 r2) s <-> Matches r1 s \/ Matches r2 s.
Proof.
  split.
  - intro Hm. inversion Hm; subst; auto.
  - intros [H1 | H2]; [now apply MAltL | now apply MAltR].
Qed.

Lemma mkCat_spec (r1 r2 : regex) (s : pystr) :
  Matches (mkCat r1 r2) s <-> Matches (Cat r1 r2) s.
Proof.
  destruct r1; cbn [mkCat]; try reflexivity.
  split; intro Hm; [now apply Matches_Empty in Hm|].
  apply Matches_Cat in Hm as (s1 & s2 & _ & H1 & _). now apply Matches_Empty in H1.
Qed.

Lemma mkAlt_spec (r1 r2 : regex) (s : pystr) :
  Matches (mkAlt r1 r2) s <-> Matches (Alt r1 r2) s.
Proof.
  rewrite Matches_Alt.
  destruct r1, r2; cbn [mkAlt]; rewrite ?Matches_Alt;
    pose proof (Matches_Empty s); tauto.
Qed.

Lemma nullable_spec (r : regex) : nullable r = true <-> Matches r [].
Proof.
  induction r as [| |p|r1 IH1 r2 IH2|r1 IH1 r2 IH2|r IH]; cbn [nullable].
  - split; [discriminate | intro Hm; now apply Matches_Empty in Hm].
  - split; [constructor | reflexivity].
  - split; [discriminate | intro Hm; inversion Hm].
  - rewrite andb_true_iff, IH1, IH2, Matches_Cat. split.
    + intros [H1 H2]. exists [], []. auto.
    + intros (s1 & s2 & Hs & H1 & H2). symmetry in Hs.
      apply app_eq_nil in Hs as [-> ->]. auto.
  - rewrite orb_true_iff, IH1, IH2, Matches_Alt. reflexivity.
  - split; [constructor | reflexivity].
Qed.

(** A non-empty match of [r*] starts with a non-empty match of [r]. *)
Lemma Matches_Star_cons (r : regex) (c : N) (s : pystr) :
  Matches (Star r) (c :: s) ->
  exists s1 s2, s = s1 ++ s2 /\ Matches r (c :: s1) /\ Matches (Star r) s2.
Proof.
  intro Hm. remember (Star r) as r' eqn:Hr. remember (c :: s) as w eqn:Hw.
  induction Hm as [| | | | | |r0 s1 s2 H1 _ H2 IH2]; try discriminate.
  injection Hr as ->. destruct s1 as [|x s1].
  - apply IH2; [reflexivity | assumption].
  - cbn [app] in Hw. injection Hw as -> <-. eauto.
Qed.

Lemma deriv_spec (c : N) (r : regex) (s : pystr) :
  Matches (deriv c r) s <-> Matches r (c :: s).
Proof.
  revert s.
  induction r as [| |p|r1 IH1 r2 IH2|r1 IH1 r2 IH2|r IH]; intro s; cbn [deriv].
  - split; intro Hm; inversion Hm.
  - split; intro Hm; inversion Hm.
  - rewrite Matches_Cls. destruct (p c) eqn:Hp.
    + rewrite Matches_Eps. split.
      * intros ->. eauto.
      * intros (x & Hx & _). now injection Hx.
    + split; [intro Hm; inversion Hm|].
      intros (x & Hx & Hpx). injection Hx as -> _. congruence.
  - rewrite mkAlt_spec, Matches_Alt, mkCat_spec, !Matches_Cat. split.
    + intros [(s1 & s2 & -> & H1 & H2) | Hm].
      * exists (c :: s1), s2. rewrite <- IH1. auto.
      * destruct (nullable r1) eqn:Hn; [|now apply Matches_Empty in Hm].
        exists [], (c :: s). rewrite <- IH2, <- nullable_spec. auto.
    + intros (s1 & s2 & Hs & H1 & H2). destruct s1 as [|x s1].
      * right. cbn [app] in Hs. subst s2.
        apply nullable_spec in H1. rewrite H1. now apply IH2.
      * left. cbn [app] in Hs. injection Hs as <- ->.
        exists s1, s2. rewrite IH1. auto.
  - rewrite mkAlt_spec, !Matches_Alt, IH1, IH2. reflexivity.
  - rewrite mkCat_spec, Matches_Cat. split.
    + intros (s1 & s2 & -> & H1 & H2). apply IH in H1.
      change (c :: s1 ++ s2) with ((c :: s1) ++ s2). now constructor.
    + intro Hm. apply Matches_Star_cons in Hm as (s1 & s2 & -> & H1 & H2).
      exists s1, s2. rewrite IH. auto.
Qed.

Theorem accepts_spec (r : regex) (s : pystr) :
  accepts r s = true <-> Matches r s.
Proof.
  revert r. induction s as [|c t IH]; intro r; cbn [accepts].
  - apply nullable_spec.
  - rewrite IH. apply deriv_spec.
Qed.

Lemma Matches_Star_class (p : N -> bool) (s : pystr) :
  Matches (Star (Cls p)) s <-> forallb p s = true.
Proof.
  split.
  - induction s as [|c t IH]; intro Hm; [reflexivity|].
    apply Matches_Star_cons in Hm as (s1 & s2 & -> & H1 & H2).
    apply Matches_Cls in H1 as (x & Hx & Hp). injection Hx as -> ->.
    cbn [forallb app]. rewrite Hp. now apply IH.
  - induction s as [|c t IH]; cbn [forallb]; intro Hp; [constructor|].
    apply andb_true_iff in Hp as [Hc Ht].
    change (c :: t) with ([c] ++ t). constructor; [now constructor | auto].
Qed.

Lemma Matches_Plus_class (p : N -> bool) (s : pystr) :
  Matches (Plus (Cls p)) s <-> s <> [] /\ forallb p s = true.
Proof.
  unfold Plus. rewrite Matches_Cat. split.
  - intros (s1 & s2 & -> & H1 & H2). apply Matches_Cls in H1 as (c & -> & Hp).
    apply Matches_Star_class in H2. cbn [app forallb]. rewrite Hp.
    split; [discriminate | assumption].
  - intros [Hne Hp]. destruct s as [|c t]; [congruence|].
    cbn [forallb] in Hp. apply andb_true_iff in Hp as [Hc Ht].
    exists [c], t. rewrite Matches_Cls, Matches_Star_class. eauto.
Qed.

Lemma Matches_AtLeast2_class (p : N -> bool) (s : pystr) :
  Matches (AtLeast2 (Cls p)) s <-> 2 <= length s /\ forallb p s = true.
Proof.
  unfold AtLeast2. rewrite Matches_Cat. split.
  - intros (s1 & s2 & -> & H1 & H2). apply Matches_Cls in H1 as (c & -> & Hp).
    apply Matches_Plus_class in H2 as [Hne H2]. cbn [app forallb length].
    rewrite Hp. destruct s2; [congruence|]. cbn [length]. split; [lia | assumption].
  - intros [Hlen Hp]. destruct s as [|c t]; [cbn in Hlen; lia|].
    cbn [forallb] in Hp. apply andb_true_iff in Hp as [Hc Ht].
    exists [c], t. rewrite Matches_Cls. split; [reflexivity|]. split; [eauto|].
    apply Matches_Plus_class. split; [|assumption].
    destruct t; [cbn in Hlen; lia | discriminate].
Qed.

Lemma Matches_Dollar (s : pystr) :
  Matches Dollar s <-> s = [] \/ s = [10%N].
Proof.
  unfold Dollar, Chr. rewrite Matches_Alt, Matches_Eps, Matches_Cls. split.
  - intros [-> | (c & -> & Hc)]; [now left|]. apply N.eqb_eq in Hc. subst. now right.
  - intros [-> | ->]; [now left|]. right. eauto.
Qed.

Lemma Matches_Chr (c : N) (s : pystr) : Matches (Chr c) s <-> s = [c].
Proof.
  unfold Chr. rewrite Matches_Cls. split.
  - intros (x & -> & Hx). apply N.eqb_eq in Hx. now subst.
  - intros ->. exists c. split; [reflexivity | apply N.eqb_refl].
Qed.

(* ================================================================== *)
(** * The two patterns of the validator *)
(* ================================================================== *)

(** What a string accepted by [EMAIL_PATTERN] looks like. *)
Lemma EMAIL_PATTERN_shape (s : pystr) :
  re_match EMAIL_PATTERN s = true <->
  exists a b l nl,
    s = a ++ chr "@" :: b ++ chr "." :: l ++ nl
    /\ a <> [] /\ forallb local_class a = true
    /\ b <> [] /\ forallb domain_class b = true
    /\ 2 <= length l /\ forallb is_letter l = true
    /\ (nl = [] \/ nl = [10%N]).
Proof.
  unfold re_match, EMAIL_PATTERN, Caret. rewrite accepts_spec.
  rewrite Matches_Cat. setoid_rewrite Matches_Eps.
  split.
  - intros (s0 & s1 & -> & -> & Hm). cbn [app].
    apply Matches_Cat in Hm as (a & s2 & -> & Ha & Hm).
    apply Matches_Cat in Hm as (x & s3 & -> & Hx & Hm).
    apply Matches_Cat in Hm as (b & s4 & -> & Hb & Hm).
    apply Matches_Cat in Hm as (y & s5 & -> & Hy & Hm).
    apply Matches_Cat in Hm as (l & nl & -> & Hl & Hnl).
    apply Matches_Chr in Hx, Hy. subst x y.
    apply Matches_Plus_class in Ha as [Ha1 Ha2], Hb as [Hb1 Hb2].
    apply Matches_AtLeast2_class in Hl as [Hl1 Hl2].
    apply Matches_Dollar in Hnl.
    exists a, b, l, nl. cbn [app]. repeat split; assumption.
  - intros (a & b & l & nl & -> & Ha1 & Ha2 & Hb1 & Hb2 & Hl1 & Hl2 & Hnl).
    exists [], (a ++ chr "@" :: b ++ chr "." :: l ++ nl).
    repeat split.
    change (a ++ chr "@" :: b ++ chr "." :: l ++ nl)
      with (a ++ [chr "@"] ++ b ++ [chr "."] ++ l ++ nl).
    repeat apply MCat.
    + now apply Matches_Plus_class.
    + now apply Matches_Chr.
    + now apply Matches_Plus_class.
    + now apply Matches_Chr.
    + now apply Matches_AtLeast2_class.
    + now apply Matches_Dollar.
Qed.

Lemma ANCHORED_PATTERN_shape (s : pystr) :
  accepts ANCHORED_PATTERN s = true <->
  exists a b l,
    s = a ++ chr "@" :: b ++ chr "." :: l
    /\ a <> [] /\ forallb local_class a = true
    /\ b <> [] /\ forallb domain_class b = true
    /\ 2 <= length l /\ forallb is_letter l = true.
Proof.
  unfold ANCHORED_PATTERN. rewrite accepts_spec. split.
  - intro Hm.
    apply Matches_Cat in Hm as (a & s2 & -> & Ha & Hm).
    apply Matches_Cat in Hm as (x & s3 & -> & Hx & Hm).
    apply Matches_Cat in Hm as (b & s4 & -> & Hb & Hm).
    apply Matches_Cat in Hm as (y & l & -> & Hy & Hl).
    apply Matches_Chr in Hx, Hy. subst x y.
    apply Matches_Plus_class in Ha as [Ha1 Ha2], Hb as [Hb1 Hb2].
    apply Matches_AtLeast2_class in Hl as [Hl1 Hl2].
    exists a, b, l. cbn [app]. repeat split; assumption.
  - intros (a & b & l & -> & Ha1 & Ha2 & Hb1 & Hb2 & Hl1 & Hl2).
    change (a ++ chr "@" :: b ++ chr "." :: l)
      with (a ++ [chr "@"] ++ b ++ [chr "."] ++ l).
    repeat apply MCat.
    + now apply Matches_Plus_class.
    + now apply Matches_Chr.
    + now apply Matches_Plus_class.
    + now apply Matches_Chr.
    + now apply Matches_AtLeast2_class.
Qed.

(** On a trimmed input, [$] can only stand for the end of the string. *)
Lemma pattern_on_trimmed (email : pyarg) :
  re_match EMAIL_PATTERN (trimmed email) = accepts ANCHORED_PATTERN (trimmed email).
Proof.
  apply eq_iff_eq_true.
  rewrite EMAIL_PATTERN_shape, ANCHORED_PATTERN_shape. split.
  - intros (a & b & l & nl & He & Ha1 & Ha2 & Hb1 & Hb2 & Hl1 & Hl2 & [-> | ->]).
    + rewrite app_nil_r in He. exists a, b, l. repeat split; assumption.
    + exfalso. apply (trimmed_no_final_newline email (a ++ chr "@" :: b ++ chr "." :: l)).
      rewrite He. rewrite <- !app_assoc. cbn [app]. rewrite <- !app_assoc.
      reflexivity.
  - intros (a & b & l & He & Hrest). exists a, b, l, [].
    rewrite app_nil_r. split; [exact He|]. intuition.
Qed.

Lemma LABEL_PATTERN_shape (label : pystr) :
  re_match LABEL_PATTERN label = true <->
  exists b nl,
    label = b ++ nl /\ b <> [] /\ forallb label_class b = true
    /\ (nl = [] \/ nl = [10%N]).
Proof.
  unfold re_match, LABEL_PATTERN, Caret. rewrite accepts_spec.
  rewrite Matches_Cat. setoid_rewrite Matches_Eps. split.
  - intros (s0 & s1 & -> & -> & Hm). cbn [app].
    apply Matches_Cat in Hm as (b & nl & -> & Hb & Hnl).
    apply Matches_Plus_class in Hb as [Hb1 Hb2]. apply Matches_Dollar in Hnl.
    exists b, nl. auto.
  - intros (b & nl & -> & Hb1 & Hb2 & Hnl).
    exists [], (b ++ nl). repeat split.
    apply MCat; [now apply Matches_Plus_class | now apply Matches_Dollar].
Qed.

(** A label without a newline passes the label pattern exactly when all its
    characters are in the label class. *)
Lemma label_pattern_without_newline (label : pystr) :
  ~ In 10%N label -> nonempty label = true ->
  re_match LABEL_PATTERN label = forallb label_class label.
Proof.
  intros Hnl Hne. apply eq_iff_eq_true. rewrite LABEL_PATTERN_shape. split.
  - intros (b & nl & -> & _ & Hb & [-> | ->]).
    + now rewrite app_nil_r.
    + exfalso. apply Hnl. apply in_or_app. right. now left.
  - intro Hp. exists label, []. rewrite app_nil_r.
    repeat split; auto. now apply nonempty_not_nil.
Qed.

(** When the final pattern accepts the string, the part before the separator
    is in the pattern's local class, and the part after it ends in a label
    made of letters, up to a newline that ends the string. *)
Lemma EMAIL_PATTERN_parts (e : pystr) :
  re_match EMAIL_PATTERN e = true ->
  exists b l nl,
    e = local_of e ++ chr "@" :: domain_of e
    /\ forallb local_class (local_of e) = true
    /\ domain_of e = b ++ chr "." :: l ++ nl
    /\ tld_of (domain_of e) = l ++ nl
    /\ forallb domain_class b = true
    /\ forallb is_letter l = true
    /\ (nl = [] \/ nl = [10%N]).
Proof.
  intro Hm.
  apply EMAIL_PATTERN_shape in Hm
    as (a & b & l & nl & -> & _ & Ha & _ & Hb & _ & Hl & Hnl).
  assert (Htail_at : count (chr "@") (l ++ nl) = 0).
  { rewrite count_app, (forallb_count_zero is_letter (chr "@") l Hl eq_refl),
      (count_end_of_line (chr "@") nl) by (discriminate || assumption).
    reflexivity. }
  assert (Htail_dot : count (chr ".") (l ++ nl) = 0).
  { rewrite count_app, (forallb_count_zero is_letter (chr ".") l Hl eq_refl),
      (count_end_of_line (chr ".") nl) by (discriminate || assumption).
    reflexivity. }
  assert (Hdom_at : count (chr "@") (b ++ chr "." :: l ++ nl) = 0).
  { rewrite count_app, (forallb_count_zero domain_class (chr "@") b Hb eq_refl).
    cbn [count]. change (chr "." =? chr "@")%N with false. cbv iota.
    exact Htail_at. }
  exists b, l, nl. unfold local_of, domain_of.
  rewrite (rsplit1_cut _ a _ Hdom_at). cbn [nth].
  rewrite (tld_of_cut b _ Htail_dot). auto 10.
Qed.

(** On a trimmed input the final pattern accepts, the domain has no newline. *)
Lemma pattern_no_newline_in_domain (email : pyarg) :
  re_match EMAIL_PATTERN (trimmed email) = true ->
  ~ In 10%N (domain_of (trimmed email)).
Proof.
  intro Hm.
  apply EMAIL_PATTERN_parts in Hm as (b & l & nl & He & _ & Hd & _ & Hb & Hl & Hnl).
  destruct Hnl as [-> | ->].
  - rewrite Hd, app_nil_r. intro Hin.
    apply in_app_or in Hin as [Hin | [Hin | Hin]].
    + rewrite forallb_forall in Hb. specialize (Hb _ Hin). discriminate.
    + discriminate.
    + rewrite forallb_forall in Hl. specialize (Hl _ Hin). discriminate.
  - exfalso.
    apply (trimmed_no_final_newline email
             (local_of (trimmed email) ++ chr "@" :: b ++ chr "." :: l)).
    rewrite He at 1. rewrite Hd. rewrite <- !app_assoc. cbn [app].
    rewrite <- !app_assoc. reflexivity.
Qed.

(* ================================================================== *)
(** * Running the methods *)
(* ================================================================== *)

Lemma bind_returned (A B : Type) (m : M A) (k : A -> M B) (a : A)
    (self self' : EmailValidator) :
  m self = (Returned a, self') -> bind m k self = k a self'.
Proof. intro Hm. unfold bind. rewrite Hm. reflexivity. Qed.

Lemma append_then_return (A : Type) (msg : pystr) (v : A) (self : EmailValidator) :
  (errors_append msg ;; ret v) self =
  (Returned v, mkEmailValidator (strict_mode self) (errors self ++ [msg])).
Proof. reflexivity. Qed.

Lemma item_is_first (s : pystr) (c : N) (self : EmailValidator) :
  nonempty s = true -> item_is s 0 c self = (Returned (head_is s c), self).
Proof.
  destruct s as [|x t]; [discriminate|]. intros _.
  unfold item_is, index. rewrite getitem_first. reflexivity.
Qed.

Lemma item_is_last (s : pystr) (c : N) (self : EmailValidator) :
  nonempty s = true -> item_is s (-1) c self = (Returned (last_is s c), self).
Proof.
  destruct s as [|x t]; [discriminate|]. intros _.
  unfold item_is, index. rewrite (getitem_last _ x 0%N). reflexivity.
Qed.

Lemma orM_run (a b : M bool) (x y : bool) (self : EmailValidator) :
  a self = (Returned x, self) -> b self = (Returned y, self) ->
  (a <||> b) self = (Returned (x || y), self).
Proof.
  intros Ha Hb. unfold orM, bind. rewrite Ha.
  destruct x; [reflexivity | exact Hb].
Qed.

Lemma local_boundary_run (local : pystr) (self : EmailValidator) :
  nonempty local = true ->
  (item_is local 0 (chr ".") <||> item_is local (-1) (chr ".")) self =
  (Returned (head_is local (chr ".") || last_is local (chr ".")), self).
Proof.
  intro Hne. apply orM_run; [now apply item_is_first | now apply item_is_last].
Qed.

Lemma domain_boundary_run (domain : pystr) (self : EmailValidator) :
  nonempty domain = true ->
  (item_is domain 0 (chr ".") <||> item_is domain (-1) (chr ".")
   <||> item_is domain 0 (chr "-") <||> item_is domain (-1) (chr "-")) self =
  (Returned (head_is domain (chr ".") || last_is domain (chr ".")
             || head_is domain (chr "-") || last_is domain (chr "-")), self).
Proof.
  intro Hne. rewrite <- !orb_assoc.
  repeat apply orM_run; solve [now apply item_is_first | now apply item_is_last].
Qed.

Section Running.

Context `{UnicodeData}.

(** The strict-mode loop stops at the first character that is not let
    through, and reports that character. *)
Lemma local_loop_run (local : pystr) (self : EmailValidator) :
  for_each local (local_char_check (str "._%+-")) self =
  match find (fun c => negb (strict_char_ok c)) local with
  | Some c =>
      (Returned (Some false),
       mkEmailValidator (strict_mode self) (errors self ++ [LocalInvalidChar c]))
  | None => (Returned None, self)
  end.
Proof.
  induction local as [|c t IH]; [reflexivity|].
  cbn [for_each find]. unfold local_char_check at 1. fold (strict_char_ok c).
  destruct (strict_char_ok c); cbn [negb].
  - exact IH.
  - reflexivity.
Qed.

Lemma label_check_run (label : pystr) (self : EmailValidator) :
  label_check label self =
  if label_rules label then (Returned None, self)
  else (Returned (Some false),
        mkEmailValidator (strict_mode self) (errors self ++ [label_message label])).
Proof.
  unfold label_check, label_rules, label_message.
  destruct (nonempty label); cbn [negb andb]; [|reflexivity].
  rewrite Nat.leb_antisym.
  destruct (63 <? length label); cbn [negb andb]; [reflexivity|].
  destruct (re_match LABEL_PATTERN label); reflexivity.
Qed.

(** The label loop stops at the first label that breaks a rule. *)
Lemma label_loop_run (labels : list pystr) (self : EmailValidator) :
  for_each labels label_check self =
  match find (fun l => negb (label_rules l)) labels with
  | Some l =>
      (Returned (Some false),
       mkEmailValidator (strict_mode self) (errors self ++ [label_message l]))
  | None => (Returned None, self)
  end.
Proof.
  induction labels as [|l ls IH]; [reflexivity|].
  cbn [for_each find]. unfold bind at 1. rewrite label_check_run.
  destruct (label_rules l); cbn [negb].
  - exact IH.
  - reflexivity.
Qed.

(** [_validate_local_part] returns whether no local-part rule fails, and
    appends the message of the first rule that does. *)
Lemma local_part_run (local : pystr) (self : EmailValidator) :
  _validate_local_part local self =
  (Returned (passed (local_failure (strict_mode self) local)),
   mkEmailValidator (strict_mode self)
     (errors self ++ reported (local_failure (strict_mode self) local))).
Proof.
  destruct self as [strict errs]. cbn [strict_mode errors].
  unfold _validate_local_part, local_failure.
  destruct (nonempty local) eqn:Hne; cbn [negb]; [|reflexivity].
  destruct (MAX_LOCAL_LENGTH <? length local); [reflexivity|].
  unfold bind at 1. rewrite (local_boundary_run local _ Hne).
  destruct (head_is local (chr ".") || last_is local (chr ".")); [reflexivity|].
  destruct (contains (str "..") local); [reflexivity|].
  unfold bind at 1, get_strict_mode. cbn [strict_mode].
  destruct strict.
  - unfold bind at 1. rewrite local_loop_run.
    destruct (find (fun c => negb (strict_char_ok c)) local); [reflexivity|].
    cbn [option_map passed reported ret]. now rewrite app_nil_r.
  - cbn [passed reported ret]. now rewrite app_nil_r.
Qed.

(** [_validate_domain_part] returns whether no domain-part rule fails, and
    appends the message of the first rule that does. *)
Lemma domain_part_run (domain : pystr) (self : EmailValidator) :
  _validate_domain_part domain self =
  (Returned (passed (domain_failure domain)),
   mkEmailValidator (strict_mode self)
     (errors self ++ reported (domain_failure domain))).
Proof.
  destruct self as [strict errs]. cbn [strict_mode errors].
  unfold _validate_domain_part, domain_failure.
  destruct (nonempty domain) eqn:Hne; cbn [negb]; [|reflexivity].
  destruct (MAX_DOMAIN_LENGTH <? length domain); [reflexivity|].
  destruct (contains (str ".") domain); cbn [negb]; [|reflexivity].
  unfold bind at 1. rewrite (domain_boundary_run domain _ Hne).
  destruct (head_is domain (chr ".") || last_is domain (chr ".")
            || head_is domain (chr "-") || last_is domain (chr "-"));
    [reflexivity|].
  destruct (contains (str "..") domain); [reflexivity|].
  cbv zeta. unfold bind at 1, index.
  pose proof (split_not_nil (chr ".") domain) as Hnil. unfold tld_of.
  destruct (split (chr ".") domain) as [|l ls]; [congruence|].
  rewrite (getitem_last _ l []). unfold ret at 1.
  destruct (length (last (l :: ls) []) <? 2); [reflexivity|].
  unfold bind at 1. rewrite label_loop_run.
  destruct (find (fun l0 => negb (label_rules l0)) (l :: ls)); [reflexivity|].
  cbn [option_map passed reported ret]. now rewrite app_nil_r.
Qed.

(** [validate] clears the error list, returns whether no stage fails, and
    leaves the message of the first stage that does as the only error. *)
Theorem validate_run (email : pyarg) (self : EmailValidator) :
  validate email self =
  (Returned (passed (first_failure (strict_mode self) email)),
   mkEmailValidator (strict_mode self)
     (reported (first_failure (strict_mode self) email))).
Proof.
  unfold validate, first_failure.
  unfold bind at 1, errors_clear.
  destruct (truthy email) eqn:Ht; cbn [negb]; [|reflexivity].
  destruct email as [|s]; [discriminate|].
  unfold bind at 1, arg_strip, ret at 1. cbn [trimmed].
  destruct (MAX_EMAIL_LENGTH <? length (strip s)); [reflexivity|].
  destruct (count (chr "@") (strip s) =? 1) eqn:Hc; cbn [negb]; [|reflexivity].
  apply Nat.eqb_eq in Hc.
  destruct (rsplit1_one _ _ Hc) as (a & b & Hr & _).
  unfold local_of, domain_of. rewrite Hr. cbn [nth].
  unfold bind at 1, unpack2, ret at 1.
  unfold bind at 1. rewrite local_part_run. cbn [strict_mode errors app].
  destruct (local_failure (strict_mode self) a); [reflexivity|].
  cbn [passed reported negb].
  unfold bind at 1. rewrite domain_part_run. cbn [strict_mode errors app].
  destruct (domain_failure b); [reflexivity|].
  cbn [passed reported negb].
  destruct (re_match EMAIL_PATTERN (strip s)); reflexivity.
Qed.

Theorem validate_with_details_run (email : pyarg) (self : EmailValidator) :
  validate_with_details email self =
  (Returned (passed (first_failure (strict_mode self) email),
             reported (first_failure (strict_mode self) email)),
   mkEmailValidator (strict_mode self)
     (reported (first_failure (strict_mode self) email))).
Proof.
  unfold validate_with_details, bind. rewrite validate_run. reflexivity.
Qed.

Lemma call_with_details_run (email : pyarg) (self : EmailValidator) :
  call_with_details self email =
  Returned (passed (first_failure (strict_mode self) email),
            reported (first_failure (strict_mode self) email)).
Proof.
  unfold call_with_details. rewrite validate_with_details_run. reflexivity.
Qed.

End Running.

(* ================================================================== *)
(** * No failure means every rule holds *)
(* ================================================================== *)

Lemma passed_true (failure : option pystr) :
  passed failure = true <-> failure = None.
Proof. destruct failure; cbn; split; congruence. Qed.

Lemma reported_nil (failure : option pystr) :
  reported failure = [] <-> failure = None.
Proof. destruct failure; cbn; split; congruence. Qed.

Lemma reported_length (failure : option pystr) :
  length (reported failure) = if passed failure then 0 else 1.
Proof. destruct failure; reflexivity. Qed.

Lemma option_map_none (A B : Type) (f : A -> B) (o : option A) :
  option_map f o = None <-> o = None.
Proof. destruct o; cbn; split; congruence. Qed.

Section Rules.

Context `{UnicodeData}.

Lemma local_failure_none (strict : bool) (local : pystr) :
  local_failure strict local = None <-> local_rules strict local = true.
Proof.
  unfold local_failure, local_rules.
  destruct (nonempty local); cbn [negb andb]; [|split; discriminate].
  rewrite Nat.leb_antisym.
  destruct (MAX_LOCAL_LENGTH <? length local); cbn [negb andb];
    [split; discriminate|].
  destruct (head_is local (chr ".") || last_is local (chr "."));
    cbn [negb andb]; [split; discriminate|].
  destruct (contains (str "..") local); cbn [negb andb]; [split; discriminate|].
  destruct strict; cbn [negb orb]; [|tauto].
  rewrite option_map_none. apply find_none_forallb.
Qed.

Lemma domain_failure_none (domain : pystr) :
  domain_failure domain = None <-> domain_rules domain = true.
Proof.
  unfold domain_failure, domain_rules, domain_shape_rules.
  destruct (nonempty domain); cbn [negb andb]; [|split; discriminate].
  rewrite Nat.leb_antisym.
  destruct (MAX_DOMAIN_LENGTH <? length domain); cbn [negb andb];
    [split; discriminate|].
  destruct (contains (str ".") domain); cbn [negb andb]; [|split; discriminate].
  destruct (head_is domain (chr ".") || last_is domain (chr ".")
            || head_is domain (chr "-") || last_is domain (chr "-"));
    cbn [negb andb]; [split; discriminate|].
  destruct (contains (str "..") domain); cbn [negb andb]; [split; discriminate|].
  rewrite Nat.leb_antisym.
  destruct (length (tld_of domain) <? 2); cbn [negb andb]; [split; discriminate|].
  rewrite option_map_none. apply find_none_forallb.
Qed.

Lemma first_failure_none (strict : bool) (email : pyarg) :
  first_failure strict email = None <-> all_stages strict email = true.
Proof.
  unfold first_failure, all_stages, stage_nonempty, stage_length,
    stage_separator, stage_local, stage_domain, stage_pattern.
  destruct (truthy email); cbn [negb andb]; [|split; discriminate].
  rewrite Nat.leb_antisym.
  destruct (MAX_EMAIL_LENGTH <? length (trimmed email)); cbn [negb andb];
    [split; discriminate|].
  destruct (count (chr "@") (trimmed email) =? 1); cbn [negb andb];
    [|split; discriminate].
  destruct (local_failure strict (local_of (trimmed email))) eqn:Hl.
  - destruct (local_rules strict (local_of (trimmed email))) eqn:Hr;
      [|split; discriminate].
    apply local_failure_none in Hr. congruence.
  - apply local_failure_none in Hl. rewrite Hl. cbn [andb].
    destruct (domain_failure (domain_of (trimmed email))) eqn:Hd.
    + destruct (domain_rules (domain_of (trimmed email))) eqn:Hr;
        [|split; discriminate].
      apply domain_failure_none in Hr. congruence.
    + apply domain_failure_none in Hd. rewrite Hd. cbn [andb].
      destruct (re_match EMAIL_PATTERN (trimmed email)); cbn [negb];
        split; congruence.
Qed.

End Rules.

Lemma local_failure_strict `{UnicodeData} (local : pystr) :
  local_rules false local = true ->
  local_failure true local =
  option_map LocalInvalidChar (find (fun c => negb (strict_char_ok c)) local).
Proof.
  unfold local_rules, local_failure.
  destruct (nonempty local); cbn [negb andb]; [|discriminate].
  rewrite Nat.leb_antisym.
  destruct (MAX_LOCAL_LENGTH <? length local); cbn [negb andb]; [discriminate|].
  destruct (head_is local (chr ".") || last_is local (chr "."));
    cbn [negb andb]; [discriminate|].
  destruct (contains (str "..") local); cbn [negb andb]; [discriminate|].
  reflexivity.
Qed.

Lemma first_failure_after_separator `{UnicodeData} (strict : bool) (email : pyarg) :
  stage_nonempty email = true ->
  stage_length email = true ->
  stage_separator email = true ->
  first_failure strict email =
  match local_failure strict (local_of (trimmed email)) with
  | Some msg => Some msg
  | None =>
      match domain_failure (domain_of (trimmed email)) with
      | Some msg => Some msg
      | None =>
          if negb (re_match EMAIL_PATTERN (trimmed email))
          then Some PatternMismatch else None
      end
  end.
Proof.
  unfold stage_nonempty, stage_length, stage_separator, first_failure.
  intros -> H2 ->. rewrite Nat.leb_antisym in H2. apply negb_true_iff in H2.
  rewrite H2. reflexivity.
Qed.

(** No message other than [TooLong] itself spells the too-long message. *)
Lemma first_failure_too_long `{UnicodeData} (strict : bool) (email : pyarg) :
  first_failure strict email = Some TooLong ->
  stage_nonempty email = true /\ stage_length email = false.
Proof.
  unfold first_failure, stage_nonempty, stage_length.
  destruct (truthy email); cbn [negb]; [|vm_compute; discriminate].
  rewrite Nat.leb_antisym.
  destruct (MAX_EMAIL_LENGTH <? length (trimmed email)); [easy|].
  destruct (count (chr "@") (trimmed email) =? 1); cbn [negb];
    [|vm_compute; discriminate].
  unfold local_failure, domain_failure.
  repeat match goal with
         | |- context [if ?c then _ else _] => destruct c
         | |- context [option_map _ ?o] => destruct o; cbn [option_map]
         end;
    try (vm_compute; discriminate);
    try (unfold label_message;
         repeat match goal with
                | |- context [if ?c then _ else _] => destruct c
                end);
    try (cbn; discriminate); try (vm_compute; discriminate).
Qed.

Lemma negb_orb4_false (a b c d : bool) :
  negb (a || b || c || d) = true -> a = false /\ b = false.
Proof. destruct a, b; cbn; intro; try discriminate; auto. Qed.

Lemma label_message_not_empty_label (label : pystr) :
  nonempty label = true -> label_message label <> EmptyLabel.
Proof.
  intro Hne. unfold label_message. rewrite Hne. cbn [negb].
  destruct (63 <? length label); [vm_compute; discriminate|].
  unfold LabelInvalidChar, EmptyLabel. cbn. discriminate.
Qed.

Lemma local_rules_ascii_agree `{UnicodeData} (strict : bool) (local : pystr) :
  forallb local_class local = true ->
  local_rules strict local = local_rules_ascii strict local.
Proof.
  intro Hc. unfold local_rules, local_rules_ascii. rewrite Hc.
  assert (Hs : forallb strict_char_ok local = true).
  { apply forallb_forall. intros c Hin. apply local_class_strict_ok.
    rewrite forallb_forall in Hc. auto. }
  now rewrite Hs.
Qed.

Lemma domain_rules_ascii_agree (domain : pystr) :
  ~ In 10%N domain -> domain_rules domain = domain_rules_ascii domain.
Proof.
  intro Hnl. unfold domain_rules, domain_rules_ascii. f_equal.
  apply forallb_agree. intros l Hl. unfold label_rules, label_rules_ascii.
  destruct (nonempty l) eqn:Hne; cbn [andb]; [|reflexivity].
  rewrite label_pattern_without_newline; [reflexivity | | exact Hne].
  intro Hin. apply Hnl. now apply (split_In (chr ".") domain l).
Qed.

(** The six stages succeed together under either reading of the character
    rules: what the code lets through beyond the ASCII classes (letters and
    digits outside ASCII in strict mode, a newline that ends a label), the
    final pattern rejects. *)
Theorem all_stages_ascii_agree `{UnicodeData} (strict : bool) (email : pyarg) :
  all_stages strict email = all_stages_ascii strict email.
Proof.
  unfold all_stages, all_stages_ascii, stage_local, stage_domain, stage_pattern.
  rewrite pattern_on_trimmed.
  destruct (accepts ANCHORED_PATTERN (trimmed email)) eqn:Hp;
    [|now rewrite !andb_false_r].
  rewrite <- pattern_on_trimmed in Hp.
  pose proof (pattern_no_newline_in_domain email Hp) as Hnl.
  apply EMAIL_PATTERN_parts in Hp as (b & l & nl & _ & Hlocal & _).
  now rewrite (local_rules_ascii_agree strict _ Hlocal),
    (domain_rules_ascii_agree _ Hnl).
Qed.

(* ================================================================== *)
(** * Properties of the specification *)
(* ================================================================== *)

(** C1. For every input, [validate] returns true if and only if all six
    stages (emptiness/trim, overall length, separator count, local part,
    domain part, final pattern) succeed, and the error list produced by the
    call is empty if and only if the verdict is true. The stages are taken
    with the checks of the code and, to the same effect, with the character
    rules read over the ASCII classes. *)
Theorem validate_true_iff_all_stages `{UnicodeData}
    (self : EmailValidator) (email : pyarg) :
  exists (b : bool) (errs : list pystr),
    fst (validate email self) = Returned b
    /\ errors (snd (validate email self)) = errs
    /\ call_with_details self email = Returned (b, errs)
    /\ (b = true <-> all_stages (strict_mode self) email = true)
    /\ (b = true <-> all_stages_ascii (strict_mode self) email = true)
    /\ (errs = [] <-> b = true).
Proof.
  exists (passed (first_failure (strict_mode self) email)),
         (reported (first_failure (strict_mode self) email)).
  rewrite validate_run, call_with_details_run. cbn [fst snd errors].
  rewrite <- all_stages_ascii_agree.
  assert (Hiff : passed (first_failure (strict_mode self) email) = true
                 <-> all_stages (strict_mode self) email = true).
  { rewrite passed_true. apply first_failure_none. }
  repeat split; try reflexivity; try apply Hiff.
  - intro Hr. now apply passed_true, reported_nil.
  - intro Hp. now apply reported_nil, passed_true.
Qed.

(** C2, as amended. Let the input pass stages 1 to 3 and the validator be in
    strict mode. If the local part contains a character outside
    [[A-Za-z0-9._%+-]], the input is rejected with exactly one error. If the
    local part passes its earlier rules (non-empty, at most 64 characters, no
    period at either end, no consecutive periods) and contains a character
    that is neither alphanumeric in the sense of [str.isalnum] nor one of
    [._%+-], that error is the invalid-character message for the first such
    character, left to right. If instead the whole local part passes the
    strict check (every character outside the class is one [str.isalnum]
    accepts) and the domain part passes too, that error is the format message
    of the final pattern. *)
Theorem strict_mode_reports_first_invalid_char `{UnicodeData}
    (self : EmailValidator) (email : pyarg) :
  strict_mode self = true ->
  stage_nonempty email = true ->
  stage_length email = true ->
  stage_separator email = true ->
  (existsb (fun c => negb (local_class c)) (local_of (trimmed email)) = true ->
   exists msg : pystr, call_with_details self email = Returned (false, [msg]))
  /\ (forall (pre : pystr) (c : N) (post : pystr),
        local_rules false (local_of (trimmed email)) = true ->
        local_of (trimmed email) = pre ++ c :: post ->
        forallb strict_char_ok pre = true ->
        strict_char_ok c = false ->
        call_with_details self email
        = Returned (false, [str "Local part contains invalid character: '"
                            ++ [c] ++ str "'"]))
  /\ (existsb (fun c => negb (local_class c)) (local_of (trimmed email)) = true ->
      stage_local true email = true ->
      stage_domain email = true ->
      call_with_details self email
      = Returned (false, [str "Email format is invalid"])).
Proof.
  intros Hstrict H1 H2 H3. rewrite call_with_details_run, Hstrict.
  rewrite (first_failure_after_separator true email H1 H2 H3).
  split; [|split].
  - intro Hbad.
    destruct (local_failure true (local_of (trimmed email))) as [m|];
      [now exists m|].
    destruct (domain_failure (domain_of (trimmed email))) as [m|];
      [now exists m|].
    destruct (re_match EMAIL_PATTERN (trimmed email)) eqn:Hm;
      [|now exists PatternMismatch].
    apply EMAIL_PATTERN_parts in Hm as (b & l & nl & _ & Hlocal & _).
    apply forallb_existsb_negb in Hlocal. congruence.
  - intros pre c post Hrules Hsplit Hpre Hc.
    rewrite (local_failure_strict _ Hrules), Hsplit.
    rewrite (find_first_offender strict_char_ok pre c post Hpre Hc).
    reflexivity.
  - intros Hbad Hlocal Hdomain.
    apply local_failure_none in Hlocal. rewrite Hlocal.
    apply domain_failure_none in Hdomain. rewrite Hdomain.
    destruct (re_match EMAIL_PATTERN (trimmed email)) eqn:Hm; [|reflexivity].
    apply EMAIL_PATTERN_parts in Hm as (b & l & nl & _ & Hclass & _).
    apply forallb_existsb_negb in Hclass. congruence.
Qed.

Lemma strict_mode_reports_first_invalid_char_witness :
  (stage_nonempty (PyStr (str "spaces in@example.com")) = true
   /\ stage_length (PyStr (str "spaces in@example.com")) = true
   /\ stage_separator (PyStr (str "spaces in@example.com")) = true
   /\ local_of (trimmed (PyStr (str "spaces in@example.com")))
      = str "spaces" ++ chr " " :: str "in"
   /\ @call_with_details latin1_only (init true) (PyStr (str "spaces in@example.com"))
      = Returned (false, [str "Local part contains invalid character: ' '"]))
  /\ (existsb (fun c => negb (local_class c))
        (local_of (trimmed (PyStr (str "us" ++ [233%N] ++ str "r@example.com"))))
      = true
      /\ @stage_local latin1_only true
           (PyStr (str "us" ++ [233%N] ++ str "r@example.com")) = true
      /\ stage_domain (PyStr (str "us" ++ [233%N] ++ str "r@example.com")) = true
      /\ @call_with_details latin1_only (init true)
           (PyStr (str "us" ++ [233%N] ++ str "r@example.com"))
         = Returned (false, [str "Email format is invalid"])).
Proof.
  assert (H0 : strict_mode (init true) = true) by reflexivity.
  assert (H1 : stage_nonempty (PyStr (str "spaces in@example.com")) = true)
    by reflexivity.
  assert (H2 : stage_length (PyStr (str "spaces in@example.com")) = true)
    by (vm_compute; reflexivity).
  assert (H3 : stage_separator (PyStr (str "spaces in@example.com")) = true)
    by (vm_compute; reflexivity).
  assert (H4 : @local_rules latin1_only false
                 (local_of (trimmed (PyStr (str "spaces in@example.com")))) = true)
    by (vm_compute; reflexivity).
  assert (H5 : local_of (trimmed (PyStr (str "spaces in@example.com")))
               = str "spaces" ++ chr " " :: str "in") by (vm_compute; reflexivity).
  assert (H6 : forallb (@strict_char_ok latin1_only) (str "spaces") = true)
    by (vm_compute; reflexivity).
  assert (H7 : @strict_char_ok latin1_only (chr " ") = false)
    by (vm_compute; reflexivity).
  assert (G1 : stage_nonempty (PyStr (str "us" ++ [233%N] ++ str "r@example.com"))
               = true) by reflexivity.
  assert (G2 : stage_length (PyStr (str "us" ++ [233%N] ++ str "r@example.com"))
               = true) by (vm_compute; reflexivity).
  assert (G3 : stage_separator (PyStr (str "us" ++ [233%N] ++ str "r@example.com"))
               = true) by (vm_compute; reflexivity).
  assert (G4 : existsb (fun c => negb (local_class c))
                 (local_of (trimmed (PyStr (str "us" ++ [233%N] ++ str "r@example.com"))))
               = true) by (vm_compute; reflexivity).
  assert (G5 : @stage_local latin1_only true
                 (PyStr (str "us" ++ [233%N] ++ str "r@example.com")) = true)
    by (vm_compute; reflexivity).
  assert (G6 : stage_domain (PyStr (str "us" ++ [233%N] ++ str "r@example.com"))
               = true) by (vm_compute; reflexivity).
  exact (conj
    (conj H1 (conj H2 (conj H3 (conj H5
       (proj1 (proj2 (@strict_mode_reports_first_invalid_char latin1_only
                        (init true) (PyStr (str "spaces in@example.com"))
                        H0 H1 H2 H3))
              (str "spaces") (chr " ") (str "in") H4 H5 H6 H7)))))
    (conj G4 (conj G5 (conj G6
       (proj2 (proj2 (@strict_mode_reports_first_invalid_char latin1_only
                        (init true)
                        (PyStr (str "us" ++ [233%N] ++ str "r@example.com"))
                        H0 G1 G2 G3))
              G4 G5 G6))))).
Defined.

(** C2 as stated fails. In ["us<U+00E9>r@example.com"] the local part has a
    character outside [[A-Za-z0-9._%+-]] that [str.isalnum] accepts: strict
    mode lets it through and the final pattern rejects the input. In
    [".a b@example.com"] the space is preceded by a boundary period, which
    is reported instead. *)
Lemma strict_mode_invalid_char_counterexample :
  (existsb (fun c => negb (local_class c))
     (local_of (trimmed (PyStr (str "us" ++ [233%N] ++ str "r@example.com")))) = true
   /\ forall (U : UnicodeData) (errs : list pystr),
        @call_with_details U (mkEmailValidator true errs)
          (PyStr (str "us" ++ [233%N] ++ str "r@example.com"))
        = Returned (false, [str "Email format is invalid"])
        /\ @call_with_details U (mkEmailValidator true errs)
             (PyStr (str "us" ++ [233%N] ++ str "r@example.com"))
           <> Returned (false, [str "Local part contains invalid character: '"
                                ++ [233%N] ++ str "'"]))
  /\ (existsb (fun c => negb (local_class c))
        (local_of (trimmed (PyStr (str ".a b@example.com")))) = true
      /\ forall (U : UnicodeData) (errs : list pystr),
           @call_with_details U (mkEmailValidator true errs)
             (PyStr (str ".a b@example.com"))
           = Returned (false, [str "Local part cannot start or end with a period"])
           /\ @call_with_details U (mkEmailValidator true errs)
                (PyStr (str ".a b@example.com"))
              <> Returned (false, [str "Local part contains invalid character: ' '"])).
Proof.
  split; (split; [vm_compute; reflexivity|]); intros U errs;
    rewrite call_with_details_run; cbn [strict_mode].
  - assert (Hf : first_failure true
                   (PyStr (str "us" ++ [233%N] ++ str "r@example.com"))
                 = Some PatternMismatch) by (vm_compute; reflexivity).
    rewrite Hf. split; [vm_compute; reflexivity | vm_compute; discriminate].
  - assert (Hf : first_failure true (PyStr (str ".a b@example.com"))
                 = Some LocalBoundaryDot) by (vm_compute; reflexivity).
    rewrite Hf. split; [vm_compute; reflexivity | vm_compute; discriminate].
Qed.

(** C3, as amended. For every non-empty input whose trimmed form has at most
    254 characters and which contains zero or two-or-more ['@'] characters,
    the call returns false and the error list is exactly
    [["Email must contain exactly one @ symbol"]]. *)
Theorem wrong_separator_count_rejected `{UnicodeData}
    (self : EmailValidator) (s : pystr) :
  s <> [] ->
  length (strip s) <= 254 ->
  count (chr "@") s <> 1 ->
  call_with_details self (PyStr s)
    = Returned (false, [str "Email must contain exactly one @ symbol"])
  /\ errors (snd (validate (PyStr s) self))
    = [str "Email must contain exactly one @ symbol"].
Proof.
  intros Hne Hlen Hcount.
  rewrite call_with_details_run, validate_run. cbn [snd errors].
  assert (Hf : first_failure (strict_mode self) (PyStr s) = Some BadSeparatorCount).
  { unfold first_failure. destruct s as [|c t]; [congruence|].
    cbn [truthy negb trimmed].
    destruct (Nat.ltb_spec MAX_EMAIL_LENGTH (length (strip (c :: t))));
      [unfold MAX_EMAIL_LENGTH in *; lia|].
    rewrite count_strip by reflexivity.
    destruct (Nat.eqb_spec (count (chr "@") (c :: t)) 1); [congruence|].
    reflexivity. }
  rewrite Hf. split; reflexivity.
Qed.

Lemma wrong_separator_count_rejected_witness :
  str "double@@example.com" <> []
  /\ length (strip (str "double@@example.com")) <= 254
  /\ count (chr "@") (str "double@@example.com") <> 1
  /\ @call_with_details latin1_only (init false) (PyStr (str "double@@example.com"))
     = Returned (false, [str "Email must contain exactly one @ symbol"]).
Proof.
  assert (H1 : str "double@@example.com" <> []) by discriminate.
  assert (H2 : length (strip (str "double@@example.com")) <= 254)
    by (vm_compute; lia).
  assert (H3 : count (chr "@") (str "double@@example.com") <> 1)
    by (vm_compute; lia).
  exact (conj H1 (conj H2 (conj H3
           (proj1 (@wrong_separator_count_rejected latin1_only (init false)
                     (str "double@@example.com") H1 H2 H3))))).
Defined.

(** C3 as stated fails: the empty string has no ['@'] and is reported as
    empty input, and a string of 255 letters has none and is reported as too
    long. *)
Lemma wrong_separator_count_counterexample :
  (count (chr "@") [] = 0
   /\ forall (U : UnicodeData) (self : EmailValidator),
        @call_with_details U self (PyStr [])
          = Returned (false, [str "Email address cannot be empty"])
        /\ @call_with_details U self (PyStr [])
          <> Returned (false, [str "Email must contain exactly one @ symbol"]))
  /\ (count (chr "@") (repeat (chr "a") 255) = 0
      /\ forall (U : UnicodeData) (self : EmailValidator),
           @call_with_details U self (PyStr (repeat (chr "a") 255))
             = Returned (false, [str "Email exceeds maximum length of 254 characters"])
           /\ @call_with_details U self (PyStr (repeat (chr "a") 255))
             <> Returned (false, [str "Email must contain exactly one @ symbol"])).
Proof.
  split; (split; [vm_compute; reflexivity|]); intros U self;
    rewrite call_with_details_run.
  - split; [reflexivity | discriminate].
  - assert (Hf : first_failure (strict_mode self) (PyStr (repeat (chr "a") 255))
                 = Some TooLong) by (vm_compute; reflexivity).
    rewrite Hf. split; [vm_compute; reflexivity | vm_compute; discriminate].
Qed.

(** C4. For every input and either setting of strict mode, the error list
    after a [validate] call holds at most one message: a failing call leaves
    exactly one, a successful call none. *)
Theorem at_most_one_error_per_call `{UnicodeData}
    (self : EmailValidator) (email : pyarg) :
  exists (b : bool) (errs : list pystr),
    call_with_details self email = Returned (b, errs)
    /\ errors (snd (validate email self)) = errs
    /\ length errs <= 1
    /\ length errs = (if b then 0 else 1).
Proof.
  exists (passed (first_failure (strict_mode self) email)),
         (reported (first_failure (strict_mode self) email)).
  rewrite validate_run, call_with_details_run. cbn [snd errors].
  rewrite reported_length.
  repeat split. destruct (passed _); lia.
Qed.

(** C5. For every domain that has passed the earlier domain checks
    (non-empty, at most 255 characters, containing a period, not starting or
    ending with a period or hyphen, without consecutive periods), the split
    on ['.'] yields no empty label, so the empty-label branch of the label
    loop is never taken and its message is never appended. *)
Theorem empty_label_branch_unreachable (domain : pystr) :
  domain_shape_rules domain = true ->
  Forall (fun label => label <> []) (split (chr ".") domain)
  /\ forall self : EmailValidator,
       errors (snd (_validate_domain_part domain self))
       <> errors self ++ [str "Domain labels cannot be empty"].
Proof.
  intro Hshape.
  assert (Hlabels : Forall (fun l => nonempty l = true) (split (chr ".") domain)).
  { unfold domain_shape_rules in Hshape.
    apply andb_true_iff in Hshape as [Hshape Hdd].
    apply andb_true_iff in Hshape as [Hshape Hb].
    apply andb_true_iff in Hshape as [Hshape _].
    apply andb_true_iff in Hshape as [Hne _].
    apply negb_orb4_false in Hb as [Hhd Hlast].
    apply negb_true_iff in Hdd.
    apply split_labels_nonempty; try assumption. now apply nonempty_not_nil. }
  split.
  - eapply Forall_impl; [|exact Hlabels]. intros l Hl. now apply nonempty_not_nil.
  - intros self. rewrite domain_part_run. cbn [snd errors].
    intro Heq. apply app_inv_head in Heq.
    change (reported (domain_failure domain) = [EmptyLabel]) in Heq.
    unfold domain_failure in Heq.
    repeat match type of Heq with
           | context [if ?c then _ else _] =>
               destruct c; [vm_compute in Heq; discriminate|]
           end.
    destruct (find (fun l => negb (label_rules l)) (split (chr ".") domain))
      as [l|] eqn:Hf; cbn [option_map reported] in Heq; [|discriminate].
    apply find_some in Hf as [Hin _].
    rewrite Forall_forall in Hlabels. specialize (Hlabels l Hin).
    injection Heq as Heq. now apply label_message_not_empty_label in Heq.
Qed.

Lemma empty_label_branch_unreachable_witness :
  domain_shape_rules (str "example.com") = true
  /\ Forall (fun label => label <> []) (split (chr ".") (str "example.com")).
Proof.
  assert (H1 : domain_shape_rules (str "example.com") = true)
    by (vm_compute; reflexivity).
  exact (conj H1 (proj1 (empty_label_branch_unreachable (str "example.com") H1))).
Defined.

(** C6. Calling [validate] twice in succession with the same input on the
    same instance returns the same verdict both times and leaves the same
    error list after each call. *)
Theorem validate_twice_same_result `{UnicodeData}
    (self : EmailValidator) (email : pyarg) :
  let first := validate email self in
  let second := validate email (snd first) in
  fst second = fst first
  /\ errors (snd second) = errors (snd first)
  /\ exists b : bool, fst first = Returned b.
Proof.
  cbv zeta. rewrite !validate_run. cbn [fst snd strict_mode errors].
  repeat split. eauto.
Qed.

(** C7, as amended. Any email string of exactly 254 characters, or whose
    trimmed form has exactly 254 characters, passes the overall-length stage
    (it is not rejected with the too-long message), and any email string whose
    trimmed form has 255 characters is rejected at that stage with the
    too-long message: the boundary is inclusive at 254, on the trimmed
    length. *)
Theorem length_boundary_on_trimmed_input `{UnicodeData}
    (self : EmailValidator) (s : pystr) :
  (length s = 254 \/ length (strip s) = 254 ->
   stage_length (PyStr s) = true
   /\ exists (b : bool) (errs : list pystr),
        call_with_details self (PyStr s) = Returned (b, errs)
        /\ ~ In (str "Email exceeds maximum length of 254 characters") errs)
  /\ (length (strip s) = 255 ->
      stage_length (PyStr s) = false
      /\ call_with_details self (PyStr s)
         = Returned (false, [str "Email exceeds maximum length of 254 characters"])).
Proof.
  rewrite call_with_details_run. split.
  - intro Hlen.
    assert (Hs : stage_length (PyStr s) = true).
    { unfold stage_length, MAX_EMAIL_LENGTH. cbn [trimmed]. apply Nat.leb_le.
      pose proof (strip_length s). lia. }
    split; [exact Hs|]. eexists _, _. split; [reflexivity|].
    destruct (first_failure (strict_mode self) (PyStr s)) as [msg|] eqn:Hf;
      cbn [reported In]; [|tauto].
    intros [Hmsg | []]. change (msg = TooLong) in Hmsg. subst msg.
    apply first_failure_too_long in Hf as [_ Hf]. congruence.
  - intro Hlen.
    assert (Hs : stage_length (PyStr s) = false).
    { unfold stage_length, MAX_EMAIL_LENGTH. cbn [trimmed]. apply Nat.leb_gt. lia. }
    split; [exact Hs|].
    unfold first_failure. cbn [trimmed].
    destruct s as [|c t]; [cbn in Hlen; discriminate|]. cbn [truthy negb].
    unfold stage_length in Hs. cbn [trimmed] in Hs.
    rewrite Nat.leb_antisym in Hs. apply negb_false_iff in Hs. rewrite Hs.
    reflexivity.
Qed.

Lemma length_boundary_on_trimmed_input_witness :
  (length (repeat (chr "a") 254) = 254
   /\ exists (b : bool) (errs : list pystr),
        @call_with_details latin1_only (init false) (PyStr (repeat (chr "a") 254))
          = Returned (b, errs)
        /\ ~ In (str "Email exceeds maximum length of 254 characters") errs)
  /\ (length (strip (repeat (chr "a") 255)) = 255
      /\ @call_with_details latin1_only (init false) (PyStr (repeat (chr "a") 255))
         = Returned (false, [str "Email exceeds maximum length of 254 characters"])).
Proof.
  assert (H1 : length (repeat (chr "a") 254) = 254) by (vm_compute; reflexivity).
  assert (H2 : length (strip (repeat (chr "a") 255)) = 255)
    by (vm_compute; reflexivity).
  exact (conj
    (conj H1 (proj2 (proj1 (@length_boundary_on_trimmed_input latin1_only
                              (init false) (repeat (chr "a") 254)) (or_introl H1))))
    (conj H2 (proj2 (proj2 (@length_boundary_on_trimmed_input latin1_only
                              (init false) (repeat (chr "a") 255)) H2)))).
Defined.

(** C7 as stated fails: 254 letters followed by a space make a string of 255
    characters that the length stage lets through; it is rejected for its
    separator count. *)
Lemma length_boundary_counterexample :
  length (repeat (chr "a") 254 ++ [chr " "]) = 255
  /\ forall (U : UnicodeData) (self : EmailValidator),
       @call_with_details U self (PyStr (repeat (chr "a") 254 ++ [chr " "]))
         = Returned (false, [str "Email must contain exactly one @ symbol"])
       /\ @call_with_details U self (PyStr (repeat (chr "a") 254 ++ [chr " "]))
         <> Returned (false, [str "Email exceeds maximum length of 254 characters"]).
Proof.
  split; [vm_compute; reflexivity|]. intros U self.
  rewrite call_with_details_run.
  assert (Hf : first_failure (strict_mode self)
                 (PyStr (repeat (chr "a") 254 ++ [chr " "]))
               = Some BadSeparatorCount) by (vm_compute; reflexivity).
  rewrite Hf. split; [vm_compute; reflexivity | vm_compute; discriminate].
Qed.

(** C8. A call with a missing input ([None]), like a call with the empty
    string, returns false and records exactly the message
    ["Email address cannot be empty"]; nothing is raised. *)
Theorem missing_input_is_empty_input `{UnicodeData} (self : EmailValidator) :
  call_with_details self PyNone
    = Returned (false, [str "Email address cannot be empty"])
  /\ call_with_details self (PyStr [])
    = Returned (false, [str "Email address cannot be empty"])
  /\ errors (snd (validate PyNone self)) = [str "Email address cannot be empty"]
  /\ errors (snd (validate (PyStr []) self)) = [str "Email address cannot be empty"].
Proof.
  rewrite !call_with_details_run, !validate_run. repeat split.
Qed.

(** C9. For ["user@example.com"], ["test.email+tag@domain.co.uk"] and
    ["valid_email123@test-domain.org"], [validate_with_details] returns
    [(True, [])], in either mode. *)
Theorem sample_addresses_are_valid `{UnicodeData} (self : EmailValidator) :
  call_with_details self (PyStr (str "user@example.com")) = Returned (true, [])
  /\ call_with_details self (PyStr (str "test.email+tag@domain.co.uk"))
     = Returned (true, [])
  /\ call_with_details self (PyStr (str "valid_email123@test-domain.org"))
     = Returned (true, []).
Proof.
  rewrite !call_with_details_run.
  destruct (strict_mode self); repeat split; vm_compute; reflexivity.
Qed.

(** C10. For any input that passes stages 1 to 5 but whose last domain label
    has at least two characters and contains a digit (["user@example.c2m"]),
    the call returns false with exactly the error ["Email format is invalid"]:
    the label rules accept such a label, and the final pattern, which wants
    two or more letters there, rejects it. *)
Theorem digit_in_tld_rejected_by_pattern `{UnicodeData}
    (self : EmailValidator) (email : pyarg) :
  stage_nonempty email = true ->
  stage_length email = true ->
  stage_separator email = true ->
  stage_local (strict_mode self) email = true ->
  stage_domain email = true ->
  2 <= length (tld_of (domain_of (trimmed email))) ->
  existsb is_digit (tld_of (domain_of (trimmed email))) = true ->
  stage_pattern email = false
  /\ call_with_details self email
     = Returned (false, [str "Email format is invalid"]).
Proof.
  intros H1 H2 H3 H4 H5 _ Hdigit.
  assert (Hp : stage_pattern email = false).
  { unfold stage_pattern.
    destruct (re_match EMAIL_PATTERN (trimmed email)) eqn:Hm; [|reflexivity].
    apply EMAIL_PATTERN_parts in Hm as (b & l & nl & _ & _ & _ & Htld & _ & Hl & Hnl).
    rewrite Htld, existsb_app, (letters_have_no_digit _ Hl) in Hdigit.
    destruct Hnl as [-> | ->]; discriminate. }
  split; [exact Hp|].
  rewrite call_with_details_run.
  assert (Hf : first_failure (strict_mode self) email = Some PatternMismatch).
  { unfold first_failure.
    unfold stage_nonempty in H1. rewrite H1. cbn [negb].
    unfold stage_length in H2. rewrite Nat.leb_antisym in H2.
    apply negb_true_iff in H2. rewrite H2.
    unfold stage_separator in H3. rewrite H3. cbn [negb].
    apply local_failure_none in H4. rewrite H4.
    apply domain_failure_none in H5. rewrite H5.
    unfold stage_pattern in Hp. rewrite Hp. reflexivity. }
  rewrite Hf. reflexivity.
Qed.

Lemma digit_in_tld_rejected_by_pattern_witness :
  stage_nonempty (PyStr (str "user@example.c2m")) = true
  /\ stage_length (PyStr (str "user@example.c2m")) = true
  /\ stage_separator (PyStr (str "user@example.c2m")) = true
  /\ @stage_local latin1_only true (PyStr (str "user@example.c2m")) = true
  /\ stage_domain (PyStr (str "user@example.c2m")) = true
  /\ tld_of (domain_of (trimmed (PyStr (str "user@example.c2m")))) = str "c2m"
  /\ @call_with_details latin1_only (init true) (PyStr (str "user@example.c2m"))
     = Returned (false, [str "Email format is invalid"]).
Proof.
  assert (H1 : stage_nonempty (PyStr (str "user@example.c2m")) = true)
    by reflexivity.
  assert (H2 : stage_length (PyStr (str "user@example.c2m")) = true)
    by (vm_compute; reflexivity).
  assert (H3 : stage_separator (PyStr (str "user@example.c2m")) = true)
    by (vm_compute; reflexivity).
  assert (H4 : @stage_local latin1_only (strict_mode (init true))
                 (PyStr (str "user@example.c2m")) = true)
    by (vm_compute; reflexivity).
  assert (H5 : stage_domain (PyStr (str "user@example.c2m")) = true)
    by (vm_compute; reflexivity).
  assert (H6 : 2 <= length (tld_of (domain_of (trimmed (PyStr (str "user@example.c2m"))))))
    by (vm_compute; lia).
  assert (H7 : existsb is_digit
                 (tld_of (domain_of (trimmed (PyStr (str "user@example.c2m")))))
               = true) by (vm_compute; reflexivity).
  assert (H8 : tld_of (domain_of (trimmed (PyStr (str "user@example.c2m"))))
               = str "c2m") by (vm_compute; reflexivity).
  exact (conj H1 (conj H2 (conj H3 (conj H4 (conj H5 (conj H8
           (proj2 (@digit_in_tld_rejected_by_pattern latin1_only (init true)
                     (PyStr (str "user@example.c2m")) H1 H2 H3 H4 H5 H6 H7)))))))).
Defined.

(* ================================================================== *)
(** * Further properties of the validator *)
(* ================================================================== *)

(** ** Inputs that reach the two part methods *)

Lemma trimmed_truthy (email : pyarg) :
  trimmed email <> [] -> truthy email = true.
Proof.
  destruct email as [|[|c t]]; cbn; [congruence | congruence | reflexivity].
Qed.

Lemma address_parts_split (email : pyarg) (local domain : pystr) :
  address_parts email local domain ->
  stage_nonempty email = true
  /\ stage_length email = true
  /\ stage_separator email = true
  /\ local_of (trimmed email) = local
  /\ domain_of (trimmed email) = domain.
Proof.
  intros (He & Hl & Hd & Hlen).
  assert (Hcut : rsplit1 (chr "@") (trimmed email) = [local; domain])
    by (rewrite He; now apply rsplit1_cut).
  repeat split.
  - apply trimmed_truthy. rewrite He. now destruct local.
  - now apply Nat.leb_le.
  - unfold stage_separator. rewrite He, count_app. cbn [count].
    rewrite N.eqb_refl, Hl, Hd. reflexivity.
  - unfold local_of. now rewrite Hcut.
  - unfold domain_of. now rewrite Hcut.
Qed.

Lemma address_parts_lengths (email : pyarg) (local domain : pystr) :
  address_parts email local domain ->
  length local + length domain < MAX_EMAIL_LENGTH.
Proof.
  intros (He & _ & _ & Hlen). rewrite He, length_app in Hlen.
  cbn [length] in Hlen. lia.
Qed.

(** What a call reports for an input that reads [local@domain]. *)
Lemma first_failure_of_parts `{UnicodeData} (strict : bool) (email : pyarg)
    (local domain : pystr) :
  address_parts email local domain ->
  first_failure strict email =
  match local_failure strict local with
  | Some msg => Some msg
  | None =>
      match domain_failure domain with
      | Some msg => Some msg
      | None =>
          if negb (re_match EMAIL_PATTERN (trimmed email))
          then Some PatternMismatch else None
      end
  end.
Proof.
  intro Hparts.
  destruct (address_parts_split email local domain Hparts)
    as (H1 & H2 & H3 & Hl & Hd).
  rewrite (first_failure_after_separator strict email H1 H2 H3), Hl, Hd.
  reflexivity.
Qed.

Lemma call_of_parts `{UnicodeData} (self : EmailValidator) (email : pyarg)
    (local domain : pystr) (msg : pystr) :
  address_parts email local domain ->
  match local_failure (strict_mode self) local with
  | Some m => Some m
  | None => domain_failure domain
  end = Some msg ->
  call_with_details self email = Returned (false, [msg]).
Proof.
  intros Hparts Hmsg. rewrite call_with_details_run.
  rewrite (first_failure_of_parts (strict_mode self) email local domain Hparts).
  destruct (local_failure (strict_mode self) local) as [m|].
  - injection Hmsg as ->. reflexivity.
  - rewrite Hmsg. reflexivity.
Qed.

Lemma last_is_last (t : pystr) (c : N) : last_is (t ++ [c]) c = true.
Proof.
  unfold last_is. rewrite last_last. destruct (t ++ [c]) eqn:Ht.
  - now destruct t.
  - apply N.eqb_refl.
Qed.

Lemma contains_double_single (c : N) (s : pystr) :
  contains [c; c] s = true -> contains [c] s = true.
Proof.
  induction s as [|x t IH]; cbn [contains startswith]; [discriminate|].
  intro Hc. apply orb_true_iff in Hc as [Hc | Hc].
  - apply andb_true_iff in Hc as [Hx _]. rewrite Hx. reflexivity.
  - rewrite (IH Hc). apply orb_true_r.
Qed.

(** ** The local part *)

(** An input that starts with its only ['@'] has an empty local part. *)
Theorem empty_local_part_reported `{UnicodeData} (self : EmailValidator)
    (email : pyarg) (domain : pystr) :
  address_parts email [] domain ->
  call_with_details self email
  = Returned (false, [str "Local part (before @) cannot be empty"]).
Proof.
  intro Hparts. apply (call_of_parts self email [] domain _ Hparts). reflexivity.
Qed.

Lemma empty_local_part_reported_witness :
  address_parts (PyStr (str "@invalid.com")) [] (str "invalid.com")
  /\ @call_with_details latin1_only (init false) (PyStr (str "@invalid.com"))
     = Returned (false, [str "Local part (before @) cannot be empty"]).
Proof.
  assert (H1 : address_parts (PyStr (str "@invalid.com")) [] (str "invalid.com")).
  { repeat split; vm_compute; lia. }
  exact (conj H1 (@empty_local_part_reported latin1_only (init false)
                    (PyStr (str "@invalid.com")) (str "invalid.com") H1)).
Defined.

(** A local part of more than 64 characters is reported as too long,
    whatever else is wrong with it. *)
Theorem long_local_part_reported `{UnicodeData} (self : EmailValidator)
    (email : pyarg) (local domain : pystr) :
  address_parts email local domain ->
  64 < length local ->
  call_with_details self email
  = Returned (false, [str "Local part exceeds maximum length of 64 characters"]).
Proof.
  intros Hparts Hlen. apply (call_of_parts self email local domain _ Hparts).
  unfold local_failure. destruct local as [|c t]; [cbn in Hlen; lia|].
  cbn [nonempty negb].
  destruct (Nat.ltb_spec MAX_LOCAL_LENGTH (length (c :: t)));
    [|unfold MAX_LOCAL_LENGTH in *; lia].
  vm_compute. reflexivity.
Qed.

Lemma long_local_part_reported_witness :
  address_parts (PyStr (repeat (chr "a") 65 ++ str "@example.com"))
    (repeat (chr "a") 65) (str "example.com")
  /\ 64 < length (repeat (chr "a") 65)
  /\ @call_with_details latin1_only (init false)
       (PyStr (repeat (chr "a") 65 ++ str "@example.com"))
     = Returned (false, [str "Local part exceeds maximum length of 64 characters"]).
Proof.
  assert (H1 : address_parts (PyStr (repeat (chr "a") 65 ++ str "@example.com"))
                 (repeat (chr "a") 65) (str "example.com")).
  { repeat split; vm_compute; lia. }
  assert (H2 : 64 < length (repeat (chr "a") 65)) by (vm_compute; lia).
  exact (conj H1 (conj H2
           (@long_local_part_reported latin1_only (init false)
              (PyStr (repeat (chr "a") 65 ++ str "@example.com"))
              (repeat (chr "a") 65) (str "example.com") H1 H2))).
Defined.

(** A non-empty local part of at most 64 characters that starts or ends with
    a period is reported for that, in either mode. *)
Theorem local_boundary_period_reported `{UnicodeData} (self : EmailValidator)
    (email : pyarg) (local domain : pystr) :
  address_parts email local domain ->
  length local <= 64 ->
  (exists t, local = chr "." :: t) \/ (exists t, local = t ++ [chr "."]) ->
  call_with_details self email
  = Returned (false, [str "Local part cannot start or end with a period"]).
Proof.
  intros Hparts Hlen Hdot. apply (call_of_parts self email local domain _ Hparts).
  unfold local_failure.
  assert (Hne : nonempty local = true).
  { destruct Hdot as [[t ->] | [t ->]]; [reflexivity | now destruct t]. }
  rewrite Hne. cbn [negb].
  destruct (Nat.ltb_spec MAX_LOCAL_LENGTH (length local));
    [unfold MAX_LOCAL_LENGTH in *; lia|].
  assert (Hb : head_is local (chr ".") || last_is local (chr ".") = true).
  { destruct Hdot as [[t ->] | [t ->]].
    - reflexivity.
    - rewrite last_is_last. apply orb_true_r. }
  rewrite Hb. reflexivity.
Qed.

Lemma local_boundary_period_reported_witness :
  address_parts (PyStr (str "ends-with-dot.@example.com"))
    (str "ends-with-dot.") (str "example.com")
  /\ length (str "ends-with-dot.") <= 64
  /\ @call_with_details latin1_only (init true)
       (PyStr (str "ends-with-dot.@example.com"))
     = Returned (false, [str "Local part cannot start or end with a period"]).
Proof.
  assert (H1 : address_parts (PyStr (str "ends-with-dot.@example.com"))
                 (str "ends-with-dot.") (str "example.com")).
  { repeat split; vm_compute; lia. }
  assert (H2 : length (str "ends-with-dot.") <= 64) by (vm_compute; lia).
  exact (conj H1 (conj H2
           (@local_boundary_period_reported latin1_only (init true)
              (PyStr (str "ends-with-dot.@example.com"))
              (str "ends-with-dot.") (str "example.com") H1 H2
              (or_intror (ex_intro _ (str "ends-with-dot") eq_refl))))).
Defined.

(** A local part of at most 64 characters with consecutive periods, and none
    at either end, is reported for the consecutive periods, in either mode. *)
Theorem local_consecutive_periods_reported `{UnicodeData}
    (self : EmailValidator) (email : pyarg) (local domain : pystr) :
  address_parts email local domain ->
  length local <= 64 ->
  head_is local (chr ".") = false ->
  last_is local (chr ".") = false ->
  contains (str "..") local = true ->
  call_with_details self email
  = Returned (false, [str "Local part cannot contain consecutive periods"]).
Proof.
  intros Hparts Hlen Hhd Hlast Hdd.
  apply (call_of_parts self email local domain _ Hparts).
  unfold local_failure.
  assert (Hne : nonempty local = true) by (destruct local; [discriminate | reflexivity]).
  rewrite Hne. cbn [negb].
  destruct (Nat.ltb_spec MAX_LOCAL_LENGTH (length local));
    [unfold MAX_LOCAL_LENGTH in *; lia|].
  rewrite Hhd, Hlast, Hdd. reflexivity.
Qed.

Lemma local_consecutive_periods_reported_witness :
  address_parts (PyStr (str "consecutive..dots@example.com"))
    (str "consecutive..dots") (str "example.com")
  /\ contains (str "..") (str "consecutive..dots") = true
  /\ @call_with_details latin1_only (init false)
       (PyStr (str "consecutive..dots@example.com"))
     = Returned (false, [str "Local part cannot contain consecutive periods"]).
Proof.
  assert (H1 : address_parts (PyStr (str "consecutive..dots@example.com"))
                 (str "consecutive..dots") (str "example.com")).
  { repeat split; vm_compute; lia. }
  assert (H2 : length (str "consecutive..dots") <= 64) by (vm_compute; lia).
  assert (H3 : head_is (str "consecutive..dots") (chr ".") = false) by reflexivity.
  assert (H4 : last_is (str "consecutive..dots") (chr ".") = false)
    by (vm_compute; reflexivity).
  assert (H5 : contains (str "..") (str "consecutive..dots") = true)
    by (vm_compute; reflexivity).
  exact (conj H1 (conj H5
           (@local_consecutive_periods_reported latin1_only (init false)
              (PyStr (str "consecutive..dots@example.com"))
              (str "consecutive..dots") (str "example.com") H1 H2 H3 H4 H5))).
Defined.

(** ** The domain part *)

Lemma call_of_domain_failure `{UnicodeData} (self : EmailValidator)
    (email : pyarg) (local domain : pystr) (msg : pystr) :
  address_parts email local domain ->
  local_rules (strict_mode self) local = true ->
  domain_failure domain = Some msg ->
  call_with_details self email = Returned (false, [msg]).
Proof.
  intros Hparts Hlocal Hmsg.
  apply (call_of_parts self email local domain _ Hparts).
  apply local_failure_none in Hlocal. now rewrite Hlocal.
Qed.

Lemma domain_within_limit (email : pyarg) (local domain : pystr) :
  address_parts email local domain ->
  (MAX_DOMAIN_LENGTH <? length domain) = false.
Proof.
  intro Hparts. apply address_parts_lengths in Hparts.
  apply Nat.ltb_ge. unfold MAX_EMAIL_LENGTH, MAX_DOMAIN_LENGTH in *. lia.
Qed.

(** An input that ends with its only ['@'], after a local part that passes,
    has an empty domain part. *)
Theorem empty_domain_part_reported `{UnicodeData} (self : EmailValidator)
    (email : pyarg) (local : pystr) :
  address_parts email local [] ->
  local_rules (strict_mode self) local = true ->
  call_with_details self email
  = Returned (false, [str "Domain part (after @) cannot be empty"]).
Proof.
  intros Hparts Hlocal.
  apply (call_of_domain_failure self email local [] _ Hparts Hlocal). reflexivity.
Qed.

Lemma empty_domain_part_reported_witness :
  address_parts (PyStr (str "invalid.email@")) (str "invalid.email") []
  /\ @local_rules latin1_only false (str "invalid.email") = true
  /\ @call_with_details latin1_only (init false) (PyStr (str "invalid.email@"))
     = Returned (false, [str "Domain part (after @) cannot be empty"]).
Proof.
  assert (H1 : address_parts (PyStr (str "invalid.email@")) (str "invalid.email") []).
  { repeat split; vm_compute; lia. }
  assert (H2 : @local_rules latin1_only (strict_mode (init false))
                 (str "invalid.email") = true) by (vm_compute; reflexivity).
  exact (conj H1 (conj H2
           (@empty_domain_part_reported latin1_only (init false)
              (PyStr (str "invalid.email@")) (str "invalid.email") H1 H2))).
Defined.

(** For an input that reads [local@domain] with a single ['@'] and at most
    254 characters, and whose local part passes, a non-empty domain without
    a period is reported for that. *)
Theorem domain_without_period_reported `{UnicodeData} (self : EmailValidator)
    (email : pyarg) (local domain : pystr) :
  address_parts email local domain ->
  local_rules (strict_mode self) local = true ->
  domain <> [] ->
  contains (str ".") domain = false ->
  call_with_details self email
  = Returned (false, [str "Domain must contain at least one period"]).
Proof.
  intros Hparts Hlocal Hne Hdot.
  apply (call_of_domain_failure self email local domain _ Hparts Hlocal).
  unfold domain_failure. destruct domain as [|c t]; [congruence|].
  cbn [nonempty negb]. rewrite (domain_within_limit _ _ _ Hparts), Hdot.
  reflexivity.
Qed.

Lemma domain_without_period_reported_witness :
  address_parts (PyStr (str "user@domain")) (str "user") (str "domain")
  /\ contains (str ".") (str "domain") = false
  /\ @call_with_details latin1_only (init false) (PyStr (str "user@domain"))
     = Returned (false, [str "Domain must contain at least one period"]).
Proof.
  assert (H1 : address_parts (PyStr (str "user@domain")) (str "user") (str "domain")).
  { repeat split; vm_compute; lia. }
  assert (H2 : @local_rules latin1_only (strict_mode (init false)) (str "user") = true)
    by (vm_compute; reflexivity).
  assert (H3 : str "domain" <> []) by discriminate.
  assert (H4 : contains (str ".") (str "domain") = false) by (vm_compute; reflexivity).
  exact (conj H1 (conj H4
           (@domain_without_period_reported latin1_only (init false)
              (PyStr (str "user@domain")) (str "user") (str "domain")
              H1 H2 H3 H4))).
Defined.

(** For an input that reads [local@domain] with a single ['@'] and at most
    254 characters, and whose local part passes, a domain with a period that
    starts or ends with a period or a hyphen is reported for its boundary
    character. *)
Theorem domain_boundary_character_reported `{UnicodeData}
    (self : EmailValidator) (email : pyarg) (local domain : pystr) :
  address_parts email local domain ->
  local_rules (strict_mode self) local = true ->
  contains (str ".") domain = true ->
  head_is domain (chr ".") = true \/ last_is domain (chr ".") = true
  \/ head_is domain (chr "-") = true \/ last_is domain (chr "-") = true ->
  call_with_details self email
  = Returned (false, [str "Domain cannot start or end with a period or hyphen"]).
Proof.
  intros Hparts Hlocal Hdot Hb.
  apply (call_of_domain_failure self email local domain _ Hparts Hlocal).
  unfold domain_failure.
  assert (Hne : nonempty domain = true) by (destruct domain; [discriminate | reflexivity]).
  rewrite Hne. cbn [negb]. rewrite (domain_within_limit _ _ _ Hparts), Hdot.
  cbn [negb].
  assert (Hor : head_is domain (chr ".") || last_is domain (chr ".")
                || head_is domain (chr "-") || last_is domain (chr "-") = true).
  { destruct Hb as [-> | [-> | [-> | ->]]]; now rewrite ?orb_true_r. }
  rewrite Hor. reflexivity.
Qed.

Lemma domain_boundary_character_reported_witness :
  address_parts (PyStr (str "user@.invalid.com")) (str "user") (str ".invalid.com")
  /\ head_is (str ".invalid.com") (chr ".") = true
  /\ @call_with_details latin1_only (init false) (PyStr (str "user@.invalid.com"))
     = Returned (false, [str "Domain cannot start or end with a period or hyphen"]).
Proof.
  assert (H1 : address_parts (PyStr (str "user@.invalid.com"))
                 (str "user") (str ".invalid.com")).
  { repeat split; vm_compute; lia. }
  assert (H2 : @local_rules latin1_only (strict_mode (init false)) (str "user") = true)
    by (vm_compute; reflexivity).
  assert (H3 : contains (str ".") (str ".invalid.com") = true)
    by (vm_compute; reflexivity).
  assert (H4 : head_is (str ".invalid.com") (chr ".") = true) by reflexivity.
  exact (conj H1 (conj H4
           (@domain_boundary_character_reported latin1_only (init false)
              (PyStr (str "user@.invalid.com")) (str "user") (str ".invalid.com")
              H1 H2 H3 (or_introl H4)))).
Defined.

(** For an input that reads [local@domain] with a single ['@'] and at most
    254 characters, and whose local part passes, a domain with consecutive
    periods, and no period or hyphen at either end, is reported for the
    consecutive periods. *)
Theorem domain_consecutive_periods_reported `{UnicodeData}
    (self : EmailValidator) (email : pyarg) (local domain : pystr) :
  address_parts email local domain ->
  local_rules (strict_mode self) local = true ->
  head_is domain (chr ".") || last_is domain (chr ".")
  || head_is domain (chr "-") || last_is domain (chr "-") = false ->
  contains (str "..") domain = true ->
  call_with_details self email
  = Returned (false, [str "Domain cannot contain consecutive periods"]).
Proof.
  intros Hparts Hlocal Hb Hdd.
  apply (call_of_domain_failure self email local domain _ Hparts Hlocal).
  unfold domain_failure.
  assert (Hne : nonempty domain = true) by (destruct domain; [discriminate | reflexivity]).
  rewrite Hne. cbn [negb]. rewrite (domain_within_limit _ _ _ Hparts).
  change (str ".") with [chr "."].
  rewrite (contains_double_single (chr ".") domain Hdd). cbn [negb].
  rewrite Hb, Hdd. reflexivity.
Qed.

Lemma domain_consecutive_periods_reported_witness :
  address_parts (PyStr (str "user@a..com")) (str "user") (str "a..com")
  /\ contains (str "..") (str "a..com") = true
  /\ @call_with_details latin1_only (init false) (PyStr (str "user@a..com"))
     = Returned (false, [str "Domain cannot contain consecutive periods"]).
Proof.
  assert (H1 : address_parts (PyStr (str "user@a..com")) (str "user") (str "a..com")).
  { repeat split; vm_compute; lia. }
  assert (H2 : @local_rules latin1_only (strict_mode (init false)) (str "user") = true)
    by (vm_compute; reflexivity).
  assert (H3 : head_is (str "a..com") (chr ".") || last_is (str "a..com") (chr ".")
               || head_is (str "a..com") (chr "-") || last_is (str "a..com") (chr "-")
               = false) by (vm_compute; reflexivity).
  assert (H4 : contains (str "..") (str "a..com") = true) by (vm_compute; reflexivity).
  exact (conj H1 (conj H4
           (@domain_consecutive_periods_reported latin1_only (init false)
              (PyStr (str "user@a..com")) (str "user") (str "a..com")
              H1 H2 H3 H4))).
Defined.

Lemma domain_failure_after_shape (domain : pystr) :
  domain_shape_rules domain = true ->
  domain_failure domain =
  if (length (tld_of domain) <? 2) then Some TldTooShort
  else option_map label_message
         (find (fun l => negb (label_rules l)) (split (chr ".") domain)).
Proof.
  unfold domain_shape_rules, domain_failure.
  destruct (nonempty domain); cbn [negb andb]; [|discriminate].
  rewrite Nat.leb_antisym.
  destruct (MAX_DOMAIN_LENGTH <? length domain); cbn [negb andb]; [discriminate|].
  destruct (contains (str ".") domain); cbn [negb andb]; [|discriminate].
  destruct (head_is domain (chr ".") || last_is domain (chr ".")
            || head_is domain (chr "-") || last_is domain (chr "-"));
    cbn [negb andb]; [discriminate|].
  destruct (contains (str "..") domain); cbn [negb andb]; [discriminate|].
  reflexivity.
Qed.

(** For an input that reads [local@domain] with a single ['@'] and at most
    254 characters, and whose local part passes, a domain of the right shape
    whose last label has a single character is reported for its top-level
    domain, before any label is examined. *)
Theorem short_top_level_domain_reported `{UnicodeData} (self : EmailValidator)
    (email : pyarg) (local domain : pystr) :
  address_parts email local domain ->
  local_rules (strict_mode self) local = true ->
  domain_shape_rules domain = true ->
  length (tld_of domain) < 2 ->
  call_with_details self email
  = Returned (false, [str "Top-level domain must be at least 2 characters"]).
Proof.
  intros Hparts Hlocal Hshape Htld.
  apply (call_of_domain_failure self email local domain _ Hparts Hlocal).
  rewrite (domain_failure_after_shape domain Hshape).
  apply Nat.ltb_lt in Htld. rewrite Htld. reflexivity.
Qed.

Lemma short_top_level_domain_reported_witness :
  address_parts (PyStr (str "user@bad_label.c")) (str "user") (str "bad_label.c")
  /\ tld_of (str "bad_label.c") = str "c"
  /\ @call_with_details latin1_only (init false) (PyStr (str "user@bad_label.c"))
     = Returned (false, [str "Top-level domain must be at least 2 characters"]).
Proof.
  assert (H1 : address_parts (PyStr (str "user@bad_label.c"))
                 (str "user") (str "bad_label.c")).
  { repeat split; vm_compute; lia. }
  assert (H2 : @local_rules latin1_only (strict_mode (init false)) (str "user") = true)
    by (vm_compute; reflexivity).
  assert (H3 : domain_shape_rules (str "bad_label.c") = true)
    by (vm_compute; reflexivity).
  assert (H4 : length (tld_of (str "bad_label.c")) < 2) by (vm_compute; lia).
  assert (H5 : tld_of (str "bad_label.c") = str "c") by (vm_compute; reflexivity).
  exact (conj H1 (conj H5
           (@short_top_level_domain_reported latin1_only (init false)
              (PyStr (str "user@bad_label.c")) (str "user") (str "bad_label.c")
              H1 H2 H3 H4))).
Defined.

(** For an input that reads [local@domain] with a single ['@'] and at most
    254 characters, and whose local part passes: among the labels of a domain
    of the right shape with a top-level domain of two or more characters, the
    first one that breaks a label rule is the one reported: as too long when
    it has more than 63 characters, and otherwise, quoted, for its
    characters. *)
Theorem first_bad_label_reported `{UnicodeData} (self : EmailValidator)
    (email : pyarg) (local domain : pystr) (before : list pystr) (label : pystr)
    (after : list pystr) :
  address_parts email local domain ->
  local_rules (strict_mode self) local = true ->
  domain_shape_rules domain = true ->
  2 <= length (tld_of domain) ->
  split (chr ".") domain = before ++ label :: after ->
  forallb label_rules before = true ->
  label_rules label = false ->
  call_with_details self email
  = Returned (false,
      [if 63 <? length label
       then str "Domain label exceeds maximum length of 63 characters"
       else str "Domain label '" ++ label ++ str "' contains invalid characters"]).
Proof.
  intros Hparts Hlocal Hshape Htld Hsplit Hbefore Hlabel.
  apply (call_of_domain_failure self email local domain _ Hparts Hlocal).
  rewrite (domain_failure_after_shape domain Hshape).
  destruct (Nat.ltb_spec (length (tld_of domain)) 2); [lia|].
  rewrite Hsplit.
  assert (Hfind : find (fun l => negb (label_rules l)) (before ++ label :: after)
                  = Some label).
  { clear Hsplit. induction before as [|l ls IH]; cbn [app find].
    - now rewrite Hlabel.
    - cbn [forallb] in Hbefore. apply andb_true_iff in Hbefore as [Hl Hls].
      rewrite Hl. cbn [negb]. auto. }
  rewrite Hfind. cbn [option_map]. f_equal. unfold label_message.
  assert (Hne : nonempty label = true).
  { assert (Hall : Forall (fun l => nonempty l = true) (split (chr ".") domain)).
    { unfold domain_shape_rules in Hshape.
      apply andb_true_iff in Hshape as [Hshape Hdd].
      apply andb_true_iff in Hshape as [Hshape Hb].
      apply andb_true_iff in Hshape as [Hshape _].
      apply andb_true_iff in Hshape as [Hne _].
      apply negb_orb4_false in Hb as [Hhd Hlast].
      apply negb_true_iff in Hdd.
      apply split_labels_nonempty; try assumption. now apply nonempty_not_nil. }
    rewrite Forall_forall in Hall. apply Hall. rewrite Hsplit.
    apply in_or_app. right. now left. }
  rewrite Hne. cbn [negb]. destruct (63 <? length label); reflexivity.
Qed.

Lemma first_bad_label_reported_witness :
  address_parts (PyStr (str "user@ok.exa_mple.com")) (str "user")
    (str "ok.exa_mple.com")
  /\ split (chr ".") (str "ok.exa_mple.com")
     = [str "ok"] ++ str "exa_mple" :: [str "com"]
  /\ @call_with_details latin1_only (init false) (PyStr (str "user@ok.exa_mple.com"))
     = Returned (false, [str "Domain label 'exa_mple' contains invalid characters"]).
Proof.
  assert (H1 : address_parts (PyStr (str "user@ok.exa_mple.com")) (str "user")
                 (str "ok.exa_mple.com")).
  { repeat split; vm_compute; lia. }
  assert (H2 : @local_rules latin1_only (strict_mode (init false)) (str "user") = true)
    by (vm_compute; reflexivity).
  assert (H3 : domain_shape_rules (str "ok.exa_mple.com") = true)
    by (vm_compute; reflexivity).
  assert (H4 : 2 <= length (tld_of (str "ok.exa_mple.com"))) by (vm_compute; lia).
  assert (H5 : split (chr ".") (str "ok.exa_mple.com")
               = [str "ok"] ++ str "exa_mple" :: [str "com"])
    by (vm_compute; reflexivity).
  assert (H6 : forallb label_rules [str "ok"] = true) by (vm_compute; reflexivity).
  assert (H7 : label_rules (str "exa_mple") = false) by (vm_compute; reflexivity).
  exact (conj H1 (conj H5
           (@first_bad_label_reported latin1_only (init false)
              (PyStr (str "user@ok.exa_mple.com")) (str "user")
              (str "ok.exa_mple.com") [str "ok"] (str "exa_mple") [str "com"]
              H1 H2 H3 H4 H5 H6 H7))).
Defined.

(** ** The two modes *)

Lemma local_rules_modes `{UnicodeData} (local : pystr) :
  forallb local_class local = true ->
  local_rules true local = local_rules false local.
Proof.
  intro Hc. unfold local_rules. cbn [negb orb].
  assert (Hs : forallb strict_char_ok local = true).
  { apply forallb_forall. intros c Hin. apply local_class_strict_ok.
    rewrite forallb_forall in Hc. auto. }
  now rewrite Hs.
Qed.

Lemma all_stages_modes `{UnicodeData} (email : pyarg) :
  all_stages true email = all_stages false email.
Proof.
  unfold all_stages, stage_local.
  destruct (stage_pattern email) eqn:Hp; [|now rewrite !andb_false_r].
  unfold stage_pattern in Hp.
  apply EMAIL_PATTERN_parts in Hp as (b & l & nl & _ & Hlocal & _).
  now rewrite (local_rules_modes _ Hlocal).
Qed.

(** The verdict does not depend on [strict_mode]: an input is accepted by a
    strict validator exactly when a validator that is not strict accepts
    it, whatever either instance held before. *)
Theorem verdict_independent_of_strict_mode `{UnicodeData}
    (email : pyarg) (errs1 errs2 : list pystr) :
  fst (validate email (mkEmailValidator true errs1))
  = fst (validate email (mkEmailValidator false errs2)).
Proof.
  rewrite !validate_run. cbn [fst strict_mode]. f_equal.
  apply eq_iff_eq_true. rewrite !passed_true, !first_failure_none.
  now rewrite all_stages_modes.
Qed.

Lemma local_failure_modes `{UnicodeData} (local : pystr) :
  local_failure true local = local_failure false local
  \/ (local_failure false local = None
      /\ exists c, In c local /\ strict_char_ok c = false
                   /\ local_failure true local = Some (LocalInvalidChar c)).
Proof.
  unfold local_failure.
  destruct (negb (nonempty local)); [now left|].
  destruct (MAX_LOCAL_LENGTH <? length local); [now left|].
  destruct (head_is local (chr ".") || last_is local (chr ".")); [now left|].
  destruct (contains (str "..") local); [now left|].
  destruct (find (fun c => negb (strict_char_ok c)) local) as [c|] eqn:Hf;
    [|now left].
  right. split; [reflexivity|]. apply find_some in Hf as [Hin Hc].
  apply negb_true_iff in Hc. exists c. auto.
Qed.

(** The two modes differ in one message only: on every input a strict
    validator returns what a validator that is not strict returns, unless it
    reports a character of the local part that [isalnum] and the special
    characters do not cover. *)
Theorem strict_mode_adds_only_invalid_char `{UnicodeData}
    (email : pyarg) (errs1 errs2 : list pystr) :
  call_with_details (mkEmailValidator true errs1) email
  = call_with_details (mkEmailValidator false errs2) email
  \/ exists c : N,
       In c (local_of (trimmed email))
       /\ strict_char_ok c = false
       /\ call_with_details (mkEmailValidator true errs1) email
          = Returned (false, [str "Local part contains invalid character: '"
                              ++ [c] ++ str "'"]).
Proof.
  rewrite !call_with_details_run. cbn [strict_mode]. unfold first_failure.
  destruct (negb (truthy email)); [now left|]. cbv zeta.
  destruct (MAX_EMAIL_LENGTH <? length (trimmed email)); [now left|].
  destruct (negb (count (chr "@") (trimmed email) =? 1)); [now left|].
  destruct (local_failure_modes (local_of (trimmed email)))
    as [Heq | (Hnone & c & Hin & Hc & Hsome)].
  - left. now rewrite Heq.
  - right. exists c. rewrite Hsome. repeat split; assumption.
Qed.

(** ** One instance, many calls *)

(** An instance that has validated anything behaves like a freshly
    constructed one of the same mode: [is_valid] returns the same verdict and
    [get_errors] the same list afterwards. *)
Theorem used_instance_behaves_as_fresh `{UnicodeData}
    (self : EmailValidator) (earlier email : pyarg) :
  let used := snd (validate earlier self) in
  let fresh := init (strict_mode self) in
  fst (is_valid email used) = fst (is_valid email fresh)
  /\ fst (get_errors (snd (is_valid email used)))
     = fst (get_errors (snd (is_valid email fresh)))
  /\ validate_with_details email used = validate_with_details email fresh.
Proof.
  cbv zeta. unfold is_valid.
  rewrite !validate_with_details_run, !validate_run. cbn [snd fst strict_mode].
  repeat split.
Qed.

(** ** Whitespace around the input *)

Lemma lstrip_fixed (s : pystr) :
  (forall c t, s = c :: t -> isspace c = false) -> lstrip s = s.
Proof.
  destruct s as [|c t]; [reflexivity|]. intro Hc. cbn [lstrip].
  now rewrite (Hc c t eq_refl).
Qed.

Lemma lstrip_suffix (s : pystr) : exists w, s = w ++ lstrip s.
Proof.
  induction s as [|c t [w IH]]; [now exists []|].
  cbn [lstrip]. destruct (isspace c).
  - exists (c :: w). cbn [app]. now rewrite <- IH.
  - now exists [].
Qed.

Lemma rstrip_prefix (s : pystr) : exists w, s = rstrip s ++ w.
Proof.
  unfold rstrip. destruct (lstrip_suffix (rev s)) as [w Hw].
  exists (rev w). rewrite <- rev_app_distr, <- Hw. now rewrite rev_involutive.
Qed.

(** Trimming a trimmed string changes nothing. *)
Lemma strip_idempotent (s : pystr) : strip (strip s) = strip s.
Proof.
  assert (Hl : lstrip (strip s) = strip s).
  { apply lstrip_fixed. intros c t Hs. unfold strip in Hs.
    destruct (rstrip_prefix (lstrip s)) as [w Hw]. rewrite Hs in Hw.
    cbn [app] in Hw. now apply lstrip_head in Hw. }
  unfold strip at 1. rewrite Hl. unfold strip, rstrip.
  rewrite rev_involutive. f_equal. apply lstrip_fixed.
  intros c t Hs. now apply lstrip_head in Hs.
Qed.

(** Whitespace before and after an address is ignored: an input that is not
    all whitespace gives the same verdict and errors as its trimmed form. *)
Theorem surrounding_whitespace_ignored `{UnicodeData}
    (self : EmailValidator) (s : pystr) :
  strip s <> [] ->
  call_with_details self (PyStr s) = call_with_details self (PyStr (strip s)).
Proof.
  intro Hne. rewrite !call_with_details_run.
  assert (Hf : first_failure (strict_mode self) (PyStr s)
               = first_failure (strict_mode self) (PyStr (strip s))).
  { unfold first_failure. cbn [trimmed]. rewrite strip_idempotent.
    destruct s as [|c t]; [now cbn in Hne|].
    destruct (strip (c :: t)) as [|c' t'] eqn:Hs; [congruence|]. reflexivity. }
  now rewrite Hf.
Qed.

Lemma surrounding_whitespace_ignored_witness :
  strip (str "  user@example.com ") = str "user@example.com"
  /\ @call_with_details latin1_only (init false) (PyStr (str "  user@example.com "))
     = @call_with_details latin1_only (init false)
         (PyStr (strip (str "  user@example.com "))).
Proof.
  assert (H1 : strip (str "  user@example.com ") <> [])
    by (vm_compute; discriminate).
  assert (H2 : strip (str "  user@example.com ") = str "user@example.com")
    by (vm_compute; reflexivity).
  exact (conj H2 (@surrounding_whitespace_ignored latin1_only (init false)
                    (str "  user@example.com ") H1)).
Defined.

Lemma lstrip_all_space (s : pystr) : forallb isspace s = true -> lstrip s = [].
Proof.
  induction s as [|c t IH]; [reflexivity|]. cbn [forallb lstrip].
  intro Hs. apply andb_true_iff in Hs as [Hc Ht]. now rewrite Hc, IH.
Qed.

(** A non-empty input made of whitespace only is not reported as empty: it
    is trimmed to the empty string and reported for its separator count. *)
Theorem whitespace_only_input_reported_for_separator `{UnicodeData}
    (self : EmailValidator) (s : pystr) :
  s <> [] ->
  forallb isspace s = true ->
  call_with_details self (PyStr s)
  = Returned (false, [str "Email must contain exactly one @ symbol"]).
Proof.
  intros Hne Hsp. rewrite call_with_details_run.
  assert (Hstrip : strip s = []).
  { unfold strip. now rewrite (lstrip_all_space s Hsp). }
  unfold first_failure. cbn [trimmed]. rewrite Hstrip.
  destruct s as [|c t]; [congruence|]. reflexivity.
Qed.

Lemma whitespace_only_input_reported_for_separator_witness :
  str "   " <> []
  /\ forallb isspace (str "   ") = true
  /\ @call_with_details latin1_only (init false) (PyStr (str "   "))
     = Returned (false, [str "Email must contain exactly one @ symbol"]).
Proof.
  assert (H1 : str "   " <> []) by discriminate.
  assert (H2 : forallb isspace (str "   ") = true) by (vm_compute; reflexivity).
  exact (conj H1 (conj H2
           (@whitespace_only_input_reported_for_separator latin1_only (init false)
              (str "   ") H1 H2))).
Defined.

(** ** What a call never reports *)

Lemma local_failure_not_domain_too_long `{UnicodeData} (strict : bool)
    (local : pystr) :
  local_failure strict local <> Some DomainTooLong.
Proof.
  unfold local_failure.
  repeat match goal with
         | |- context [if ?c then _ else _] => destruct c
         | |- context [option_map _ ?o] => destruct o; cbn [option_map]
         end;
    solve [vm_compute; discriminate | cbn; discriminate | discriminate].
Qed.

Lemma domain_failure_too_long (domain : pystr) :
  domain_failure domain = Some DomainTooLong ->
  (MAX_DOMAIN_LENGTH <? length domain) = true.
Proof.
  unfold domain_failure.
  destruct (negb (nonempty domain)); [vm_compute; discriminate|].
  destruct (MAX_DOMAIN_LENGTH <? length domain); [reflexivity|].
  repeat match goal with
         | |- context [if ?c then _ else _] => destruct c
         | |- context [option_map _ ?o] => destruct o; cbn [option_map]
         end;
    try (vm_compute; discriminate);
    unfold label_message;
    repeat match goal with
           | |- context [if ?c then _ else _] => destruct c
           end;
    solve [vm_compute; discriminate | cbn; discriminate | discriminate].
Qed.

(** [validate] never reports a domain as longer than 255 characters: the
    limit of 254 on the whole address is checked first, so the domain-length
    branch is not taken. *)
Theorem domain_too_long_never_reported `{UnicodeData}
    (self : EmailValidator) (email : pyarg) :
  exists (b : bool) (errs : list pystr),
    call_with_details self email = Returned (b, errs)
    /\ ~ In (str "Domain exceeds maximum length of 255 characters") errs.
Proof.
  rewrite call_with_details_run. eexists _, _. split; [reflexivity|].
  destruct (first_failure (strict_mode self) email) as [msg|] eqn:Hf;
    cbn [reported In]; [|tauto].
  intros [Hmsg | []]. change (msg = DomainTooLong) in Hmsg. subst msg.
  unfold first_failure in Hf.
  destruct (negb (truthy email)); [revert Hf; vm_compute; discriminate|].
  cbv zeta in Hf.
  destruct (MAX_EMAIL_LENGTH <? length (trimmed email)) eqn:Hlen;
    [revert Hf; vm_compute; discriminate|].
  destruct (count (chr "@") (trimmed email) =? 1) eqn:Hc; cbn [negb] in Hf;
    [|revert Hf; vm_compute; discriminate].
  apply Nat.eqb_eq in Hc.
  destruct (rsplit1_one _ _ Hc) as (a & d & Hr & He & Ha & Hd).
  assert (Hparts : address_parts email a d).
  { repeat split; try assumption. now apply Nat.ltb_ge in Hlen. }
  unfold local_of, domain_of in Hf. rewrite Hr in Hf. cbn [nth] in Hf.
  destruct (local_failure (strict_mode self) a) eqn:Hl.
  - rewrite Hf in Hl. now apply local_failure_not_domain_too_long in Hl.
  - destruct (domain_failure d) eqn:Hdf.
    + rewrite Hf in Hdf. apply domain_failure_too_long in Hdf.
      rewrite (domain_within_limit _ _ _ Hparts) in Hdf. discriminate.
    + destruct (negb (re_match EMAIL_PATTERN (trimmed email)));
        revert Hf; vm_compute; discriminate.
Qed.

(** ** What the final pattern alone rejects *)

Lemma pattern_failure_reported `{UnicodeData} (self : EmailValidator)
    (email : pyarg) :
  stage_nonempty email = true ->
  stage_length email = true ->
  stage_separator email = true ->
  stage_local (strict_mode self) email = true ->
  stage_domain email = true ->
  stage_pattern email = false ->
  call_with_details self email = Returned (false, [PatternMismatch]).
Proof.
  intros H1 H2 H3 H4 H5 H6. rewrite call_with_details_run.
  rewrite (first_failure_after_separator _ email H1 H2 H3).
  apply local_failure_none in H4. rewrite H4.
  apply domain_failure_none in H5. rewrite H5.
  unfold stage_pattern in H6. rewrite H6. reflexivity.
Qed.

(** When stages 1 to 5 pass, a character of the local part outside
    [[A-Za-z0-9._%+-]] makes the call fail with the format message: this is
    the only place where a validator that is not strict checks the
    characters of the local part. *)
Theorem local_character_rejected_by_pattern `{UnicodeData}
    (self : EmailValidator) (email : pyarg) :
  stage_nonempty email = true ->
  stage_length email = true ->
  stage_separator email = true ->
  stage_local (strict_mode self) email = true ->
  stage_domain email = true ->
  existsb (fun c => negb (local_class c)) (local_of (trimmed email)) = true ->
  call_with_details self email
  = Returned (false, [str "Email format is invalid"]).
Proof.
  intros H1 H2 H3 H4 H5 Hbad.
  apply (pattern_failure_reported self email H1 H2 H3 H4 H5).
  unfold stage_pattern.
  destruct (re_match EMAIL_PATTERN (trimmed email)) eqn:Hm; [|reflexivity].
  apply EMAIL_PATTERN_parts in Hm as (b & l & nl & _ & Hlocal & _).
  apply forallb_existsb_negb in Hlocal. congruence.
Qed.

Lemma local_character_rejected_by_pattern_witness :
  stage_nonempty (PyStr (str "spaces in@example.com")) = true
  /\ stage_length (PyStr (str "spaces in@example.com")) = true
  /\ stage_separator (PyStr (str "spaces in@example.com")) = true
  /\ @stage_local latin1_only false (PyStr (str "spaces in@example.com")) = true
  /\ stage_domain (PyStr (str "spaces in@example.com")) = true
  /\ @call_with_details latin1_only (init false) (PyStr (str "spaces in@example.com"))
     = Returned (false, [str "Email format is invalid"]).
Proof.
  assert (H1 : stage_nonempty (PyStr (str "spaces in@example.com")) = true)
    by reflexivity.
  assert (H2 : stage_length (PyStr (str "spaces in@example.com")) = true)
    by (vm_compute; reflexivity).
  assert (H3 : stage_separator (PyStr (str "spaces in@example.com")) = true)
    by (vm_compute; reflexivity).
  assert (H4 : @stage_local latin1_only (strict_mode (init false))
                 (PyStr (str "spaces in@example.com")) = true)
    by (vm_compute; reflexivity).
  assert (H5 : stage_domain (PyStr (str "spaces in@example.com")) = true)
    by (vm_compute; reflexivity).
  assert (H6 : existsb (fun c => negb (local_class c))
                 (local_of (trimmed (PyStr (str "spaces in@example.com")))) = true)
    by (vm_compute; reflexivity).
  exact (conj H1 (conj H2 (conj H3 (conj H4 (conj H5
           (@local_character_rejected_by_pattern latin1_only (init false)
              (PyStr (str "spaces in@example.com")) H1 H2 H3 H4 H5 H6)))))).
Defined.

(** The label pattern ends in [$], which also matches before a newline that
    ends the label: a label of allowed characters followed by one newline
    passes the label loop, and the input is rejected by the final pattern
    with the format message, not for the label's characters. *)
Theorem newline_in_domain_rejected_by_pattern `{UnicodeData}
    (self : EmailValidator) (email : pyarg) :
  stage_nonempty email = true ->
  stage_length email = true ->
  stage_separator email = true ->
  stage_local (strict_mode self) email = true ->
  stage_domain email = true ->
  In 10%N (domain_of (trimmed email)) ->
  call_with_details self email
  = Returned (false, [str "Email format is invalid"]).
Proof.
  intros H1 H2 H3 H4 H5 Hnl.
  apply (pattern_failure_reported self email H1 H2 H3 H4 H5).
  unfold stage_pattern.
  destruct (re_match EMAIL_PATTERN (trimmed email)) eqn:Hm; [|reflexivity].
  now apply pattern_no_newline_in_domain in Hm.
Qed.

Lemma newline_in_domain_rejected_by_pattern_witness :
  stage_domain (PyStr (str "user@abc" ++ [10%N] ++ str ".com")) = true
  /\ In 10%N (domain_of (trimmed (PyStr (str "user@abc" ++ [10%N] ++ str ".com"))))
  /\ @call_with_details latin1_only (init false)
       (PyStr (str "user@abc" ++ [10%N] ++ str ".com"))
     = Returned (false, [str "Email format is invalid"]).
Proof.
  assert (H1 : stage_nonempty (PyStr (str "user@abc" ++ [10%N] ++ str ".com")) = true)
    by reflexivity.
  assert (H2 : stage_length (PyStr (str "user@abc" ++ [10%N] ++ str ".com")) = true)
    by (vm_compute; reflexivity).
  assert (H3 : stage_separator (PyStr (str "user@abc" ++ [10%N] ++ str ".com")) = true)
    by (vm_compute; reflexivity).
  assert (H4 : @stage_local latin1_only (strict_mode (init false))
                 (PyStr (str "user@abc" ++ [10%N] ++ str ".com")) = true)
    by (vm_compute; reflexivity).
  assert (H5 : stage_domain (PyStr (str "user@abc" ++ [10%N] ++ str ".com")) = true)
    by (vm_compute; reflexivity).
  assert (H6 : In 10%N (domain_of (trimmed
                 (PyStr (str "user@abc" ++ [10%N] ++ str ".com"))))).
  { vm_compute. right. right. right. now left. }
  exact (conj H5 (conj H6
           (@newline_in_domain_rejected_by_pattern latin1_only (init false)
              (PyStr (str "user@abc" ++ [10%N] ++ str ".com"))
              H1 H2 H3 H4 H5 H6))).
Defined.

(** ** What an accepted address looks like *)

Lemma letter_in_domain_class (c : N) :
  is_letter c = true -> domain_class c = true.
Proof.
  unfold is_letter, domain_class. intro Hl.
  apply orb_true_iff in Hl as [-> | ->]; now rewrite ?orb_true_r.
Qed.

(** Every address [validate] accepts is, once trimmed, of the form
    [local@domain] with at most 254 characters, a local part of 1 to 64
    characters of [[A-Za-z0-9._%+-]], a domain of characters of
    [[A-Za-z0-9.-]] whose labels have 1 to 63 characters each, and a last
    label of two or more ASCII letters. *)
Theorem accepted_address_shape `{UnicodeData}
    (self : EmailValidator) (email : pyarg) :
  fst (validate email self) = Returned true ->
  exists (s local domain : pystr),
    email = PyStr s
    /\ strip s = local ++ chr "@" :: domain
    /\ length (strip s) <= 254
    /\ 1 <= length local <= 64
    /\ forallb local_class local = true
    /\ forallb domain_class domain = true
    /\ Forall (fun label => 1 <= length label <= 63) (split (chr ".") domain)
    /\ 2 <= length (tld_of domain)
    /\ forallb is_letter (tld_of domain) = true.
Proof.
  rewrite validate_run. cbn [fst]. intro Hp. injection Hp as Hp.
  apply passed_true, first_failure_none in Hp.
  unfold all_stages in Hp.
  apply andb_true_iff in Hp as [Hp H6]. apply andb_true_iff in Hp as [Hp H5].
  apply andb_true_iff in Hp as [Hp H4]. apply andb_true_iff in Hp as [Hp H3].
  apply andb_true_iff in Hp as [H1 H2].
  destruct email as [|s]; [discriminate|]. cbn [trimmed] in *.
  pose proof (pattern_no_newline_in_domain (PyStr s) H6) as Hnl.
  cbn [trimmed] in Hnl.
  unfold stage_pattern in H6. cbn [trimmed] in H6.
  apply EMAIL_PATTERN_parts in H6
    as (b & l & nl & He & Hlocal & Hd & Htld & Hb & Hl & Hends).
  assert (nl = []) as ->.
  { destruct Hends as [-> | ->]; [reflexivity|]. exfalso. apply Hnl.
    rewrite Hd. apply in_or_app. right. right. apply in_or_app. right. now left. }
  rewrite app_nil_r in Hd, Htld.
  exists s, (local_of (strip s)), (domain_of (strip s)).
  unfold stage_local, stage_domain, stage_length in *. cbn [trimmed] in *.
  unfold local_rules in H4. unfold domain_rules in H5.
  apply andb_true_iff in H4 as [H4 _]. apply andb_true_iff in H4 as [H4 _].
  apply andb_true_iff in H4 as [H4 _]. apply andb_true_iff in H4 as [Hne Hlen].
  apply andb_true_iff in H5 as [H5 Hlabels].
  apply andb_true_iff in H5 as [_ Htldlen].
  apply Nat.leb_le in Hlen, Htldlen, H2.
  unfold MAX_LOCAL_LENGTH, MAX_EMAIL_LENGTH in *.
  repeat split; try assumption.
  - destruct (local_of (strip s)); [discriminate | cbn [length]; lia].
  - rewrite Hd, forallb_app. cbn [forallb]. rewrite Hb. cbn [andb].
    change (domain_class (chr ".")) with true. cbn [andb].
    apply forallb_forall. intros c Hc. apply letter_in_domain_class.
    rewrite forallb_forall in Hl. auto.
  - apply Forall_forall. intros label Hin.
    rewrite forallb_forall in Hlabels. specialize (Hlabels label Hin).
    unfold label_rules in Hlabels.
    apply andb_true_iff in Hlabels as [Hlabels _].
    apply andb_true_iff in Hlabels as [Hn Hl63]. apply Nat.leb_le in Hl63.
    destruct label; [discriminate | cbn [length] in *; lia].
  - rewrite Htld. exact Hl.
Qed.

Lemma accepted_address_shape_witness :
  @validate latin1_only (PyStr (str " user@example.com")) (init true)
    = (Returned true, init true)
  /\ exists (s local domain : pystr),
       PyStr (str " user@example.com") = PyStr s
       /\ strip s = local ++ chr "@" :: domain
       /\ length (strip s) <= 254
       /\ 1 <= length local <= 64
       /\ forallb local_class local = true
       /\ forallb domain_class domain = true
       /\ Forall (fun label => 1 <= length label <= 63) (split (chr ".") domain)
       /\ 2 <= length (tld_of domain)
       /\ forallb is_letter (tld_of domain) = true.
Proof.
  assert (H1 : @validate latin1_only (PyStr (str " user@example.com")) (init true)
               = (Returned true, init true)) by (vm_compute; reflexivity).
  exact (conj H1 (@accepted_address_shape latin1_only (init true)
                    (PyStr (str " user@example.com")) (f_equal fst H1))).
Defined.

(** ** The two part methods on their own *)

(** Called on any string, [_validate_local_part] and [_validate_domain_part]
    return without raising (the empty string is turned away before its first
    and last characters are read), keep the errors recorded so far, and
    append one message exactly when they return false. *)
Theorem part_methods_never_raise `{UnicodeData}
    (self : EmailValidator) (part : pystr) :
  (exists (b : bool) (errs : list pystr),
     _validate_local_part part self
     = (Returned b, mkEmailValidator (strict_mode self) (errors self ++ errs))
     /\ length errs = (if b then 0 else 1))
  /\ (exists (b : bool) (errs : list pystr),
        _validate_domain_part part self
        = (Returned b, mkEmailValidator (strict_mode self) (errors self ++ errs))
        /\ length errs = (if b then 0 else 1)).
Proof.
  rewrite local_part_run, domain_part_run. split; eexists _, _;
    (split; [reflexivity | apply reported_length]).
Qed.
